(** * Conway's Game of Life on a padded NumPy buffer (conway_game.py)

    A shallow embedding of [ConwayGameOfLife]: the constructor with its three
    validation checks, the rule table, the strided 3x3 neighbour view and the
    in-place generation loop of [run_iterations], followed by the properties
    of the board they maintain. *)

From stdpp Require Import base numbers list strings gmap.

Local Open Scope Z_scope.

(** ** Exceptions and the result monad *)

(** The exceptions the code can end with.  [OutOfBuffer] is not a Python
    exception: it marks a read through a strided view that leaves the
    underlying buffer, which NumPy does not check. *)
Inductive exn :=
| NotImplementedError (msg : string)
| IndexError
| ValueError
| OutOfBuffer.

Inductive result (A : Type) :=
| Ok (a : A)
| Raise (e : exn).
Arguments Ok {A} a.
Arguments Raise {A} e.

#[global] Instance result_ret : MRet result := λ A, Ok.
#[global] Instance result_bind : MBind result := λ A B f r,
  match r with Ok a => f a | Raise e => Raise e end.

(** The three messages of [__init__], under the names the specification
    gives to the failures. *)
Definition InvalidTypeError : exn :=
  NotImplementedError "Board must be an numpy.array.".
Definition InvalidShapeError : exn :=
  NotImplementedError "Board state invalid! Must be at least 2x2.".
Definition InvalidValueError : exn :=
  NotImplementedError "Board state invalid! Must be filled with 0s and 1s.".

(** ** Arrays *)

(** An integer [numpy.ndarray]: its shape and its elements in C order. *)
Record ndarray := NdArray { shape : list nat; data : list Z }.

(** What a caller may hand to the constructor. *)
Inductive pyobj :=
| PyInt (z : Z)
| PyList (rows : list (list Z))
| PyNdarray (a : ndarray).

(** A two-dimensional C-contiguous [uint8] array: [expanded_board]. *)
Record uint8_2d := Uint8_2d { rows : nat; cols : nat; buf : list Z }.

(** [x.strides] for a [uint8_2d] (item size 1). *)
Definition strides (x : uint8_2d) : nat * nat := (cols x, 1%nat).

Definition to_uint8 (v : Z) : Z := v mod 256.
Definition to_uint64 (v : Z) : Z := v mod 2 ^ 64.

(** Integer indexing of one axis: negative indices count from the end, an
    index outside the axis raises [IndexError]. *)
Definition np_index {A} (l : list A) (i : Z) : result A :=
  let len := Z.of_nat (length l) in
  let i' := if i <? 0 then i + len else i in
  if (0 <=? i') && (i' <? len) then
    match l !! Z.to_nat i' with
    | Some x => Ok x
    | None => Raise IndexError
    end
  else Raise IndexError.

(** A read at a raw offset of a buffer. *)
Definition read (base : list Z) (off : nat) : result Z :=
  match base !! off with
  | Some v => Ok v
  | None => Raise OutOfBuffer
  end.

(** Index pairs [(r, c)] of an [m] x [n] array, in C order. *)
Definition cells (m n : nat) : list (nat * nat) :=
  r ← seq 0 m; c ← seq 0 n; [(r, c)].

(** ** The game object *)

Record ConwayGameOfLife := Game {
  lookup : list (list Z);
  expanded_board : uint8_2d
}.

(** [self.lookup] as [__init__] sets it. *)
Definition LOOKUP : list (list Z) :=
  [ [0;0;0;1;0;0;0;0;0]; [0;0;1;1;0;0;0;0;0] ].

(** [self.board = self.expanded_board[1:-1, 1:-1]] is a view: its shape and
    the offset of its element [(r, c)] in the buffer of [expanded_board]. *)
Definition board_shape (self : ConwayGameOfLife) : nat * nat :=
  ((rows (expanded_board self) - 2)%nat, (cols (expanded_board self) - 2)%nat).

Definition board_offset (self : ConwayGameOfLife) (r c : nat) : nat :=
  ((r + 1) * cols (expanded_board self) + (c + 1))%nat.

(** [self.board[r, c]] *)
Definition board_at (self : ConwayGameOfLife) (r c : nat) : option Z :=
  buf (expanded_board self) !! board_offset self r c.

(** [self.expanded_board[i, j]] *)
Definition expanded_at (self : ConwayGameOfLife) (i j : nat) : option Z :=
  buf (expanded_board self) !! (i * cols (expanded_board self) + j)%nat.

(** The elements of the view [self.board], in C order. *)
Definition board_values (self : ConwayGameOfLife) : result (list Z) :=
  let '(m, n) := board_shape self in
  mapM (λ '(r, c), read (buf (expanded_board self)) (board_offset self r c))
       (cells m n).

(** [get_lookup(cell_status, num_neighbors)]:
    [self.lookup[cell_status, num_neighbors]]. *)
Definition get_lookup (self : ConwayGameOfLife) (cell_status num_neighbors : Z)
  : result Z :=
  row ← np_index (lookup self) cell_status;
  np_index row num_neighbors.

(** ** Neighbour windows *)

(** A four-dimensional strided view of a buffer, as
    [numpy.lib.stride_tricks.as_strided] builds it: no copy, no bounds. *)
Record strided4 := Strided4 {
  base : list Z;
  vshape : nat * nat * nat * nat;
  vstrides : nat * nat * nat * nat
}.

Definition as_strided (x : uint8_2d) (shape strides : nat * nat * nat * nat)
  : strided4 :=
  Strided4 (buf x) shape strides.

(** Offset of the element [(r, c, i, j)] of a view, and the element. *)
Definition strided_offset (v : strided4) (r c i j : nat) : nat :=
  let '(s0, s1, s2, s3) := vstrides v in
  (r * s0 + c * s1 + i * s2 + j * s3)%nat.

Definition strided_at (v : strided4) (r c i j : nat) : result Z :=
  read (base v) (strided_offset v r c i j).

(** [get_all_neighbors()] *)
Definition get_all_neighbors (self : ConwayGameOfLife) : strided4 :=
  let '(m, n) := board_shape self in
  let '(s0, s1) := strides (expanded_board self) in
  as_strided (expanded_board self) (m, n, 3%nat, 3%nat) (s0, s1, s0, s1).

(** [np.sum(v, axis=(-2,-1))]: a fresh [uint64] array of the window sums. *)
Definition np_sum_last2 (v : strided4) : result (list Z) :=
  let '(m, n, p, q) := vshape v in
  mapM (λ '(r, c),
          w ← mapM (λ '(i, j), strided_at v r c i j) (cells p q);
          Ok (foldl (λ acc x, to_uint64 (acc + x)) 0 w))
       (cells m n).

(** ** One generation *)

(** [np.sum(all_neighbors, axis = (-2,-1)) - self.board] *)
Definition all_num_neighbors (self : ConwayGameOfLife) : result (list Z) :=
  sums ← np_sum_last2 (get_all_neighbors self);
  b ← board_values self;
  Ok (zip_with (λ s x, to_uint64 (s - x)) sums b).

(** [np.where(cond, x, y)], elementwise on arrays of one shape. *)
Definition np_where (cond x y : list Z) : list Z :=
  zip_with (λ c xy, if c =? 0 then xy.2 else xy.1) cond (zip x y).

(** [self.board[:] = new]: the elements of a fresh array are stored one by
    one through the view, cast to [uint8]. *)
Definition setitem_board (self : ConwayGameOfLife) (new : list Z)
  : ConwayGameOfLife :=
  let '(m, n) := board_shape self in
  let x := expanded_board self in
  Game (lookup self)
       (Uint8_2d (rows x) (cols x)
          (foldl (λ b '((r, c), v), <[board_offset self r c := to_uint8 v]> b)
                 (buf x) (zip (cells m n) new))).

(** The body of the loop of [run_iterations], without the printing. *)
Definition generation (self : ConwayGameOfLife) : result ConwayGameOfLife :=
  cnt ← all_num_neighbors self;
  b ← board_values self;
  row1 ← np_index (lookup self) 1;
  alive ← mapM (np_index row1) cnt;
  row0 ← np_index (lookup self) 0;
  dead ← mapM (np_index row0) cnt;
  Ok (setitem_board self (np_where b alive dead)).

(** What [print] has written so far. *)
Definition stdout := list ndarray.

Definition iteration (verbose : bool) (st : ConwayGameOfLife * stdout)
  : result (ConwayGameOfLife * stdout) :=
  let '(self, out) := st in
  self' ← generation self;
  if verbose then
    b ← board_values self';
    let '(m, n) := board_shape self' in
    Ok (self', out ++ [NdArray [m; n] b])
  else Ok (self', out).

(** [for i in range(k): body] *)
Fixpoint for_range {S} (k : nat) (body : S → result S) (s : S) : result S :=
  match k with
  | O => Ok s
  | S k' => s' ← body s; for_range k' body s'
  end.

(** [run_iterations(n, verbose)]; [range(n)] is empty for [n <= 0]. *)
Definition run_iterations (self : ConwayGameOfLife) (n : Z) (verbose : bool)
  (out : stdout) : result (ConwayGameOfLife * stdout) :=
  for_range (Z.to_nat n) (iteration verbose) (self, out).

(** ** Construction *)

(** [__init__(board)].  After the three checks the padded buffer is allocated
    with the dimensions of [board] plus two and the two-axis slice
    [[1:-1, 1:-1]] is assigned: on an array with fewer than two axes the
    slice raises [IndexError]; with more than two the slice keeps the padded
    extent of the further axes, which is at least 4 and so cannot be
    broadcast from the extent of [board], and the assignment raises
    [ValueError]. *)
Definition __init__ (board : pyobj) : result ConwayGameOfLife :=
  match board with
  | PyNdarray a =>
      if existsb (λ x, x <? 2)%nat (shape a) then Raise InvalidShapeError
      else if negb (forallb (λ v, existsb (Z.eqb v) [0; 1]) (data a))
      then Raise InvalidValueError
      else
        match shape a with
        | [m; n] =>
            let zeros :=
              Uint8_2d (m + 2) (n + 2) (replicate ((m + 2) * (n + 2)) 0) in
            Ok (setitem_board (Game LOOKUP zeros) (data a))
        | [] | [_] => Raise IndexError
        | _ => Raise ValueError
        end
  | _ => Raise InvalidTypeError
  end.

(** ** The specification's vocabulary *)

(** A board as the rules see it: which cells of the plane are alive. *)
Definition grid := Z → Z → bool.

Definition in_board (m n : nat) (r c : Z) : bool :=
  (0 <=? r) && (r <? Z.of_nat m) && (0 <=? c) && (c <? Z.of_nat n).

(** The eight cells around [(r, c)]. *)
Definition neighbours (r c : Z) : list (Z * Z) :=
  [ (r - 1, c - 1); (r - 1, c); (r - 1, c + 1);
    (r, c - 1);                 (r, c + 1);
    (r + 1, c - 1); (r + 1, c); (r + 1, c + 1) ].

Definition live_neighbours (w : grid) (r c : Z) : Z :=
  Z.of_nat (length (List.filter (λ p, w p.1 p.2) (neighbours r c))).

(** Conway's rule: a live cell survives with two or three live neighbours, a
    dead cell is born with exactly three. *)
Definition life_rule (alive : bool) (k : Z) : bool :=
  if alive then (k =? 2) || (k =? 3) else (k =? 3).

(** The successor of a finite [m] x [n] board: nothing lives outside it. *)
Definition successor (m n : nat) (w : grid) : grid :=
  λ r c, in_board m n r c && life_rule (w r c) (live_neighbours w r c).

(** The logical board of a game, read as a [grid]. *)
Definition logical (g : ConwayGameOfLife) : grid :=
  λ r c,
    let '(m, n) := board_shape g in
    in_board m n r c
    && bool_decide (board_at g (Z.to_nat r) (Z.to_nat c) = Some 1).

(** The 3x3 block of the padded buffer at rows [r..r+3), columns [c..c+3),
    row by row. *)
Definition window (g : ConwayGameOfLife) (r c : nat) : option (list Z) :=
  mapM (λ '(i, j), expanded_at g (r + i) (c + j)) (cells 3 3).

Definition sum_Z (l : list Z) : Z := foldr Z.add 0 l.

(** Cells of the border ring of the padded buffer. *)
Definition on_border (g : ConwayGameOfLife) (i j : nat) : Prop :=
  let x := expanded_board g in
  (i < rows x)%nat ∧ (j < cols x)%nat ∧
  (i = 0 ∨ i = rows x - 1 ∨ j = 0 ∨ j = cols x - 1)%nat.

(** The state of a game whose board passed the constructor's checks. *)
Record valid (g : ConwayGameOfLife) : Prop := Valid {
  valid_lookup : lookup g = LOOKUP;
  valid_rows : (4 ≤ rows (expanded_board g))%nat;
  valid_cols : (4 ≤ cols (expanded_board g))%nat;
  valid_length :
    length (buf (expanded_board g))
    = (rows (expanded_board g) * cols (expanded_board g))%nat;
  valid_binary : Forall (λ v, v = 0 ∨ v = 1) (buf (expanded_board g));
  valid_border : ∀ i j, on_border g i j → expanded_at g i j = Some 0
}.

(** The games a program can hold: built by the constructor, then run. *)
Inductive reachable : ConwayGameOfLife → Prop :=
| reach_init b g :
    __init__ b = Ok g → reachable g
| reach_run g n verbose out g' out' :
    reachable g →
    run_iterations g n verbose out = Ok (g', out') →
    reachable g'.

(** [k] calls of [run_iterations(1, verbose)], one after the other. *)
Fixpoint single_steps (k : nat) (verbose : bool) (st : ConwayGameOfLife * stdout)
  : result (ConwayGameOfLife * stdout) :=
  match k with
  | O => Ok st
  | S k' =>
      st' ← run_iterations st.1 1 verbose st.2;
      single_steps k' verbose st'
  end.

(** An array literal [np.array([[...], ...])] of shape [(m, n)]. *)
Definition np_array2 (m n : nat) (l : list Z) : pyobj :=
  PyNdarray (NdArray [m; n] l).

Definition board_after (b : pyobj) (n : Z) : result (list Z) :=
  g ← __init__ b; st ← run_iterations g n false []; board_values st.1.

(** ** Total readings of a game, for the proofs *)

(** Stores at the offsets [fo x] of the values [fv x], for [x] along a list. *)
Definition stores {X} (fo : X → nat) (fv : X → Z) (b : list Z) (xs : list X)
  : list Z :=
  foldl (λ b x, <[fo x := fv x]> b) b xs.

(** [expanded_board[i, j]] and [board[r, c]], with 0 outside the buffer. *)
Definition padv (g : ConwayGameOfLife) (i j : nat) : Z :=
  buf (expanded_board g) !!! (i * cols (expanded_board g) + j)%nat.

Definition cellv (g : ConwayGameOfLife) (r c : nat) : Z :=
  buf (expanded_board g) !!! board_offset g r c.

(** The [uint64] sum of the window of [(r, c)], and that sum less the cell. *)
Definition wsum (g : ConwayGameOfLife) (r c : nat) : Z :=
  foldl (λ acc x, to_uint64 (acc + x)) 0
        ((λ ij, padv g (r + ij.1) (c + ij.2)) <$> cells 3 3).

Definition count (g : ConwayGameOfLife) (r c : nat) : Z :=
  to_uint64 (wsum g r c - cellv g r c).

(** The entry of the rule table chosen for [(r, c)]. *)
Definition table (s : nat) (k : Z) : Z := (LOOKUP !!! s) !!! Z.to_nat k.

Definition next (g : ConwayGameOfLife) (r c : nat) : Z :=
  if cellv g r c =? 0 then table 0 (count g r c) else table 1 (count g r c).

(** One generation and [k] generations in closed form, and what a verbose
    run prints along the way. *)
Definition step (g : ConwayGameOfLife) : ConwayGameOfLife :=
  setitem_board g
    ((λ rc, next g rc.1 rc.2) <$> cells (board_shape g).1 (board_shape g).2).

Definition snapshot (g : ConwayGameOfLife) : ndarray :=
  NdArray [(board_shape g).1; (board_shape g).2]
          ((λ rc, cellv g rc.1 rc.2)
             <$> cells (board_shape g).1 (board_shape g).2).

Fixpoint steps (k : nat) (g : ConwayGameOfLife) : ConwayGameOfLife :=
  match k with
  | O => g
  | S k' => steps k' (step g)
  end.

Fixpoint printed (k : nat) (g : ConwayGameOfLife) : list ndarray :=
  match k with
  | O => []
  | S k' => snapshot (step g) :: printed k' (step g)
  end.

(** The vertical blinker of the tests: the array handed to the constructor
    and the game the constructor builds from it. *)
Definition blinker_board : pyobj := np_array2 3 3 [0;1;0; 0;1;0; 0;1;0].

Definition blinker : ConwayGameOfLife :=
  Game LOOKUP
       (Uint8_2d 5 5 [0;0;0;0;0; 0;0;1;0;0; 0;0;1;0;0; 0;0;1;0;0; 0;0;0;0;0]).

(** ** Whole runs on arrays *)

(** The grid an [m] x [n] array in C order stands for, the array of a grid,
    and [k] generations of a grid. *)
Definition grid_of (m n : nat) (d : list Z) : grid :=
  λ r c,
    in_board m n r c
    && bool_decide (d !! (Z.to_nat r * n + Z.to_nat c)%nat = Some 1).

Definition array_of (m n : nat) (w : grid) : list Z :=
  (λ rc, Z.b2z (w (Z.of_nat rc.1) (Z.of_nat rc.2))) <$> cells m n.

Definition generations (m n : nat) (k : nat) (w : grid) : grid :=
  Nat.iter k (successor m n) w.

(** ** Files and the console (pickle_conway.py) *)

(** A Python value that may be [None]. *)
Inductive pyvalue :=
| PyNone
| PyObj (o : pyobj).

(** What a file holds: the pickle of a value, or bytes [pickle.load] cannot
    decode. *)
Inductive file_content :=
| Pickled (v : pyvalue)
| Corrupt.

(** What [print] writes: a text, or an array. *)
Inductive line :=
| Text (s : string)
| Board (a : ndarray).

(** The world outside the program: the files by path, the paths [open]
    refuses with [OSError], the formatted time
    [datetime.now().strftime("%d%m%Y.%H-%M-%S")] and the console. *)
Record world := World {
  files : gmap string file_content;
  locked : gset string;
  now : string;
  console : list line
}.

(** Exceptions of the scripts: those of the game, and those of the files and
    of [sys.exit]. *)
Inductive exc :=
| Core (e : exn)
| OSError
| UnpicklingError
| SystemExit (code : Z).

(** A call returns a value or throws; either way the world has moved on. *)
Inductive outcome (A : Type) :=
| Return (a : A) (w : world)
| Throw (e : exc) (w : world).
Arguments Return {A} a w.
Arguments Throw {A} e w.

Definition print (l : line) (w : world) : world :=
  World (files w) (locked w) (now w) (console w ++ [l]).

(** [pickle.dump(v, open(path, 'wb'))], the path being open to writing. *)
Definition dump (path : string) (v : pyvalue) (w : world) : world :=
  World (<[path := Pickled v]> (files w)) (locked w) (now w) (console w).

(** [str(filename)] for a name that may be [None]. *)
Definition str_filename (filename : option string) : string :=
  match filename with
  | Some s => s
  | None => "None"
  end.

(** [not filename]: [None] and the empty string are false. *)
Definition falsy (filename : option string) : bool :=
  match filename with
  | Some s => bool_decide (s = "")
  | None => true
  end.

(** [pickle_conway_board(board_state, filename, verbose)] *)
Definition pickle_conway_board (board_state : pyvalue)
  (filename : option string) (verbose : bool) (w : world) : outcome bool :=
  match board_state with
  | PyObj (PyNdarray _) =>
      let name :=
        if falsy filename then ("conway" ++ now w ++ ".pkl")%string
        else str_filename filename in
      let w1 :=
        if falsy filename && verbose then print (Text name) w else w in
      if bool_decide (name ∈ locked w1) then Throw OSError w1
      else Return true (dump name board_state w1)
  | _ =>
      Return false
        (if verbose
         then print (Text ("Invalid type. Could not save board-state to file: "
                           ++ str_filename filename)) w
         else w)
  end.

(** [unpickle_conway_board(filename, verbose)].  A path that is refused or
    names no file makes [open] raise [OSError], which is caught; a failure
    of [pickle.load] is not. *)
Definition unpickle_conway_board (filename : string) (verbose : bool)
  (w : world) : outcome pyvalue :=
  let no_file :=
    Return PyNone
      (if verbose
       then print (Text ("Could not open/read file: " ++ filename)) w
       else w) in
  if bool_decide (filename ∈ locked w) then no_file
  else
    match files w !! filename with
    | None => no_file
    | Some Corrupt => Throw UnpicklingError w
    | Some (Pickled (PyObj (PyNdarray a))) => Return (PyObj (PyNdarray a)) w
    | Some (Pickled _) =>
        Return PyNone
          (if verbose
           then print (Text "Could not read valid Game of Life board-state.") w
           else w)
    end.

(** ** The command line (conway.py) *)

(** [ConwayGameOfLife(board = v)]: [None] is no array and fails the first
    check of [__init__]. *)
Definition new_game (v : pyvalue) : result ConwayGameOfLife :=
  match v with
  | PyObj o => __init__ o
  | PyNone => Raise InvalidTypeError
  end.

(** [game.board] as a value: the array of the view. *)
Definition board (self : ConwayGameOfLife) : result pyvalue :=
  vals ← board_values self;
  Ok (PyObj (PyNdarray
               (NdArray [(board_shape self).1; (board_shape self).2] vals))).

(** [sys.argv[i]] for an index that is not negative. *)
Definition argv_at (argv : list string) (i : nat) : result string :=
  match argv !! i with
  | Some s => Ok s
  | None => Raise IndexError
  end.

(** [range(0, len(sys.argv[1:]), 2)] *)
Definition arg_indices (argv : list string) : list nat :=
  (λ j, 2 * j)%nat <$> seq 0 ((length argv - 1 + 1) / 2).

(** [dict(pairs)]: the pairs are stored in order, a later key replaces an
    earlier one. *)
Definition cli_dict (pairs : list (string * string)) : gmap string string :=
  foldl (λ (m : gmap string string) kv, <[kv.1 := kv.2]> m) ∅ pairs.

(** [dict((sys.argv[1 + i], sys.argv[2 + i]) for i in range(...))] *)
Definition parse_args (argv : list string) : result (gmap string string) :=
  pairs ← mapM (λ i, k ← argv_at argv (1 + i);
                     v ← argv_at argv (2 + i);
                     Ok (k, v))
               (arg_indices argv);
  Ok (cli_dict pairs).

(** The truth of [cli_args.get(key, None)]. *)
Definition given (arg : option string) : bool := negb (falsy arg).

(** [sys.argv] for a program started with the given flag and value pairs. *)
Definition command_line (prog : string) (pairs : list (string * string))
  : list string :=
  prog :: (pairs ≫= λ kv, [kv.1; kv.2]).

Section main.
(** The builtin [int] on a string. *)
Variable int : string → result Z.

(** [main()], on [sys.argv]. *)
Definition main (argv : list string) (w : world) : outcome unit :=
  match parse_args argv with
  | Raise e => Throw (Core e) w
  | Ok cli_args =>
      let input_arg := cli_args !! "-f" in
      let output_arg := cli_args !! "-o" in
      let generation_arg := cli_args !! "-n" in
      let verbose_arg := bool_decide (cli_args !! "-v" = Some "True") in
      if negb (given input_arg) || negb (given output_arg)
         || negb (given generation_arg)
      then Throw (SystemExit 1) (print (Text "Invalid arguments.") w)
      else
        match int (str_filename generation_arg) with
        | Raise e => Throw (Core e) w
        | Ok n =>
            match unpickle_conway_board (str_filename input_arg)
                    verbose_arg w with
            | Throw e w1 => Throw e w1
            | Return game_board w1 =>
                match new_game game_board with
                | Raise e => Throw (Core e) w1
                | Ok game =>
                    match run_iterations game n verbose_arg [] with
                    | Raise e => Throw (Core e) w1
                    | Ok (game', out) =>
                        let w2 := foldl (λ w a, print (Board a) w) w1 out in
                        match board game' with
                        | Raise e => Throw (Core e) w2
                        | Ok b =>
                            match pickle_conway_board b output_arg
                                    verbose_arg w2 with
                            | Return _ w3 => Return tt w3
                            | Throw e w3 => Throw e w3
                            end
                        end
                    end
                end
            end
        end
  end.
End main.

(** * Properties *)

(** ** The repository's tests, replayed *)

Example test_conway_oscillator1 :
  board_after (np_array2 3 3 [0;1;0; 0;1;0; 0;1;0]) 1
  = Ok [0;0;0; 1;1;1; 0;0;0].
Proof. vm_compute. reflexivity. Qed.

Example test_conway_boat_still :
  board_after
    (np_array2 5 5 [0;0;0;0;0; 0;1;1;0;0; 0;1;0;1;0; 0;0;1;0;0; 0;0;0;0;0]) 1
  = Ok [0;0;0;0;0; 0;1;1;0;0; 0;1;0;1;0; 0;0;1;0;0; 0;0;0;0;0].
Proof. vm_compute. reflexivity. Qed.

Example test_conway_glider4 :
  board_after
    (np_array2 5 5 [0;0;0;0;0; 0;0;1;0;0; 1;0;1;0;0; 0;1;1;0;0; 0;0;0;0;0]) 4
  = Ok [0;0;0;0;0; 0;0;0;0;0; 0;0;0;1;0; 0;1;0;1;0; 0;0;1;1;0].
Proof. vm_compute. reflexivity. Qed.

(** Index bounds, once the local abbreviations are unfolded. *)
Ltac index_bounds :=
  repeat match goal with v := _ |- _ => subst v end;
  cbn [fst snd] in *; lia.

(** ** Lists, loops and the result monad *)

Section lists.
Context {A B : Type}.

Lemma mapM_Ok (f : A → result B) (h : A → B) (l : list A) :
  (∀ x, x ∈ l → f x = Ok (h x)) → mapM f l = Ok (h <$> l).
Proof.
  induction l as [|x l IH]; intros Hf; [done|].
  cbn. rewrite (Hf x) by left. cbn.
  rewrite IH; [done|]. intros y Hy. apply Hf. by right.
Qed.

Lemma mapM_fmap_Ok {C} (f : B → result C) (h : A → B) (k : A → C) l :
  (∀ x, x ∈ l → f (h x) = Ok (k x)) → mapM f (h <$> l) = Ok (k <$> l).
Proof.
  induction l as [|x l IH]; intros Hf; [done|].
  cbn. rewrite (Hf x) by left. cbn.
  rewrite IH; [done|]. intros y Hy. apply Hf. by right.
Qed.

Lemma mapM_Some_fmap (f : A → option B) (h : A → B) (l : list A) :
  (∀ x, x ∈ l → f x = Some (h x)) → mapM f l = Some (h <$> l).
Proof.
  intros Hf. apply mapM_Some_2, Forall2_fmap_r, Forall_Forall2_diag.
  by apply Forall_forall.
Qed.

Lemma zip_with_fmap_same {C D} (f : B → C → D) (g : A → B) (h : A → C) l :
  zip_with f (g <$> l) (h <$> l) = (λ x, f (g x) (h x)) <$> l.
Proof. induction l; cbn; congruence. Qed.

Lemma foldl_pointwise (f g : A → B → A) (l : list B) (a : A) :
  (∀ a b, f a b = g a b) → foldl f a l = foldl g a l.
Proof.
  intros Hfg. revert a. induction l as [|b l IH]; intros a; [done|].
  cbn. by rewrite Hfg, IH.
Qed.
End lists.

(** Stores at the offsets [fo x] of the values [fv x], for [x] along a list. *)
Section stores.
Context {X : Type} (fo : X → nat) (fv : X → Z).
Local Abbreviation stores := (stores fo fv).

Lemma length_stores b xs : length (stores b xs) = length b.
Proof.
  revert b. induction xs as [|x xs IH]; intros b; [done|].
  cbn. unfold stores in IH. by rewrite IH, length_insert.
Qed.

Lemma stores_lookup_other b xs (p : nat) :
  (∀ x, x ∈ xs → fo x ≠ p) → stores b xs !! p = b !! p.
Proof.
  revert b. induction xs as [|x xs IH]; intros b Hp; [done|].
  cbn. unfold stores in IH. rewrite IH.
  - apply list_lookup_insert_ne, Hp. by left.
  - intros y Hy. apply Hp. by right.
Qed.

Lemma stores_lookup b xs x :
  NoDup (fo <$> xs) → x ∈ xs → (fo x < length b)%nat →
  stores b xs !! fo x = Some (fv x).
Proof.
  revert b. induction xs as [|y xs IH]; intros b Hnd Hx Hlen.
  { by apply elem_of_nil in Hx. }
  cbn in Hnd. apply NoDup_cons in Hnd as [Hy Hnd].
  apply elem_of_cons in Hx as [->|Hx]; cbn.
  - fold (stores (<[fo y:=fv y]> b) xs). rewrite stores_lookup_other.
    + by apply list_lookup_insert_eq.
    + intros z Hz Heq. apply Hy. rewrite <- Heq.
      apply list_elem_of_fmap. eauto.
  - apply IH; [done|done|]. by rewrite length_insert.
Qed.

Lemma stores_Forall (P : Z → Prop) b xs :
  Forall P b → (∀ x, x ∈ xs → P (fv x)) → Forall P (stores b xs).
Proof.
  revert b. induction xs as [|x xs IH]; intros b Hb Hxs; [done|].
  cbn. apply IH.
  - apply Forall_insert; [done|]. apply Hxs. by left.
  - intros y Hy. apply Hxs. by right.
Qed.
End stores.

(** ** Index arithmetic of C-ordered arrays *)

Lemma elem_of_cells m n r c :
  (r, c) ∈ cells m n ↔ (r < m)%nat ∧ (c < n)%nat.
Proof.
  unfold cells. rewrite list_elem_of_bind. split.
  - intros (r' & Hin & Hr).
    apply list_elem_of_bind in Hin as (c' & Hin & Hc).
    apply list_elem_of_singleton in Hin. inversion Hin; subst.
    apply elem_of_seq in Hr, Hc. lia.
  - intros [Hr Hc]. exists r. split; [|apply elem_of_seq; lia].
    apply list_elem_of_bind. exists c. split; [by left|apply elem_of_seq; lia].
Qed.

Lemma length_cells_row (k s n : nat) :
  length (seq s n ≫= λ c, [(k, c)]) = n.
Proof.
  revert s. induction n as [|n IHn]; intros s; [done|].
  cbn. by rewrite IHn.
Qed.

Lemma cells_row_lookup (k s n j : nat) :
  (j < n)%nat → (seq s n ≫= λ c, [(k, c)]) !! j = Some (k, (s + j)%nat).
Proof.
  revert s j. induction n as [|n IHn]; intros s j Hj; [lia|].
  destruct j as [|j]; cbn.
  - do 2 f_equal. lia.
  - rewrite IHn by lia. do 2 f_equal. lia.
Qed.

Lemma length_cells m n : length (cells m n) = (m * n)%nat.
Proof.
  unfold cells. induction m as [|m IH]; [done|].
  rewrite seq_S, bind_app, length_app, IH. cbn.
  rewrite app_nil_r, length_cells_row. lia.
Qed.

Lemma cells_lookup m n r c :
  (r < m)%nat → (c < n)%nat → cells m n !! (r * n + c)%nat = Some (r, c).
Proof.
  induction m as [|m IH]; intros Hr Hc; [lia|].
  pose proof (length_cells m n) as Hl.
  unfold cells in *. rewrite seq_S, bind_app. cbn. rewrite app_nil_r.
  destruct (decide (r < m)%nat) as [Hlt|Hge].
  - rewrite lookup_app_l; [by apply IH|]. rewrite Hl. nia.
  - assert (r = m) as -> by lia.
    rewrite lookup_app_r; rewrite Hl; [|lia].
    replace (m * n + c - m * n)%nat with c by lia.
    by rewrite cells_row_lookup.
Qed.

Lemma NoDup_cells m n : NoDup (cells m n).
Proof.
  unfold cells. apply NoDup_bind.
  - intros r1 r2 [r c] _ _ H1 H2.
    apply list_elem_of_bind in H1 as (? & H1 & _).
    apply list_elem_of_bind in H2 as (? & H2 & _).
    apply list_elem_of_singleton in H1, H2. congruence.
  - intros r _. apply NoDup_bind.
    + intros c1 c2 [r' c] _ _ H1 H2.
      apply list_elem_of_singleton in H1, H2. congruence.
    + intros c _. apply NoDup_singleton.
    + apply NoDup_seq.
  - apply NoDup_seq.
Qed.

(** A row-major offset determines its row and column. *)
Lemma offset_inj (w i j i' j' : nat) :
  (j < w)%nat → (j' < w)%nat → (i * w + j = i' * w + j')%nat →
  i = i' ∧ j = j'.
Proof.
  intros Hj Hj' Heq.
  destruct (Nat.lt_trichotomy i i') as [Hlt|[->|Hlt]]; [exfalso| lia |exfalso].
  - assert ((i + 1) * w ≤ i' * w)%nat by (apply Nat.mul_le_mono_r; lia). lia.
  - assert ((i' + 1) * w ≤ i * w)%nat by (apply Nat.mul_le_mono_r; lia). lia.
Qed.

(** ** Assignment through the view [self.board] *)

Section setitem.
Variable g : ConwayGameOfLife.
Variable new : list Z.

Let x := expanded_board g.
Let m := (rows x - 2)%nat.
Let n := (cols x - 2)%nat.

Lemma setitem_board_stores :
  setitem_board g new
  = Game (lookup g)
      (Uint8_2d (rows x) (cols x)
         (stores (λ e, board_offset g e.1.1 e.1.2) (λ e, to_uint8 e.2)
                 (buf x) (zip (cells m n) new))).
Proof.
  unfold setitem_board, board_shape, stores. cbn. do 2 f_equal.
  apply foldl_pointwise. by intros b [[r c] v].
Qed.

Lemma setitem_board_lookup : lookup (setitem_board g new) = lookup g.
Proof. by rewrite setitem_board_stores. Qed.

Lemma setitem_board_rows :
  rows (expanded_board (setitem_board g new)) = rows x.
Proof. by rewrite setitem_board_stores. Qed.

Lemma setitem_board_cols :
  cols (expanded_board (setitem_board g new)) = cols x.
Proof. by rewrite setitem_board_stores. Qed.

Lemma setitem_board_shape :
  board_shape (setitem_board g new) = board_shape g.
Proof. unfold board_shape. by rewrite setitem_board_rows, setitem_board_cols. Qed.

Lemma setitem_board_length :
  length (buf (expanded_board (setitem_board g new))) = length (buf x).
Proof. rewrite setitem_board_stores. cbn. apply length_stores. Qed.

Lemma setitem_board_Forall (P : Z → Prop) :
  Forall P (buf x) → Forall (λ v, P (to_uint8 v)) new →
  Forall P (buf (expanded_board (setitem_board g new))).
Proof.
  intros Hb Hnew. rewrite setitem_board_stores. cbn.
  apply stores_Forall; [done|]. intros [rc v] Hin. cbn.
  rewrite Forall_forall in Hnew. apply Hnew.
  apply list_elem_of_lookup in Hin as [k Hk].
  apply lookup_zip_with_Some in Hk as (? & ? & Heq & _ & Hv).
  inversion Heq; subst. apply list_elem_of_lookup. eauto.
Qed.

(** The ring is not written ... *)
Lemma setitem_board_ring (i j : nat) :
  (j < cols x)%nat →
  ¬ ((1 ≤ i ≤ m)%nat ∧ (1 ≤ j ≤ n)%nat) →
  expanded_at (setitem_board g new) i j = expanded_at g i j.
Proof.
  intros Hj Hout. unfold expanded_at.
  rewrite setitem_board_cols. rewrite setitem_board_stores. cbn.
  apply stores_lookup_other.
  intros [[r c] v] Hin Heq. cbn in Heq.
  apply list_elem_of_lookup in Hin as [k Hk].
  apply lookup_zip_with_Some in Hk as (rc & ? & Heq' & Hrc & _).
  inversion Heq'; subst rc.
  apply list_elem_of_lookup_2, elem_of_cells in Hrc as [Hr Hc].
  unfold board_offset in Heq. fold x in Heq.
  apply offset_inj in Heq; [|subst n; lia..].
  apply Hout. lia.
Qed.

Hypothesis Hlen : length (buf x) = (rows x * cols x)%nat.
Hypothesis Hnew : length new = (m * n)%nat.
Hypothesis Hrows : (2 ≤ rows x)%nat.
Hypothesis Hcols : (2 ≤ cols x)%nat.

(** ... and inside the ring the buffer holds the assigned array. *)
Lemma setitem_board_interior (r c : nat) :
  (r < m)%nat → (c < n)%nat →
  board_at (setitem_board g new) r c
  = to_uint8 <$> new !! (r * n + c)%nat.
Proof.
  intros Hr Hc.
  destruct (lookup_lt_is_Some_2 new (r * n + c)%nat) as [v Hv].
  { rewrite Hnew. subst m n. nia. }
  rewrite Hv. unfold board_at.
  replace (board_offset (setitem_board g new) r c)
    with (board_offset g r c)
    by (unfold board_offset; by rewrite setitem_board_cols).
  rewrite setitem_board_stores. cbn.
  apply (stores_lookup (λ e, board_offset g e.1.1 e.1.2)
           (λ e, to_uint8 e.2) (buf x) (zip (cells m n) new) ((r, c), v)).
  - replace ((λ e : nat * nat * Z, board_offset g e.1.1 e.1.2)
               <$> zip (cells m n) new)
      with ((λ rc, board_offset g rc.1 rc.2) <$> (zip (cells m n) new).*1)
      by (by rewrite <- list_fmap_compose).
    rewrite fst_zip by (rewrite length_cells; lia).
    apply NoDup_fmap_2_strong; [|apply NoDup_cells].
    intros [r1 c1] [r2 c2] H1%elem_of_cells H2%elem_of_cells Heq.
    unfold board_offset in Heq. cbn in Heq. fold x in Heq.
    apply offset_inj in Heq; [|subst n; lia..].
    f_equal; lia.
  - apply list_elem_of_lookup. exists (r * n + c)%nat.
    apply lookup_zip_with_Some. exists (r, c), v.
    split_and!; [done| by apply cells_lookup |done].
  - cbn. unfold board_offset. fold x. rewrite Hlen. subst m n.
    assert ((r + 1 + 1) * cols x ≤ rows x * cols x)%nat
      by (apply Nat.mul_le_mono_r; lia).
    lia.
Qed.

End setitem.

(** ** The steps of one generation, in closed form *)

Section generation.
Variable g : ConwayGameOfLife.

Let x := expanded_board g.
Let m := (rows x - 2)%nat.
Let n := (cols x - 2)%nat.

Hypothesis Hlen : length (buf x) = (rows x * cols x)%nat.
Hypothesis Hrows : (2 ≤ rows x)%nat.
Hypothesis Hcols : (2 ≤ cols x)%nat.

Lemma pad_in_buffer (i j : nat) :
  (i < rows x)%nat → (j < cols x)%nat →
  (i * cols x + j < length (buf x))%nat.
Proof.
  intros Hi Hj. rewrite Hlen.
  assert ((i + 1) * cols x ≤ rows x * cols x)%nat
    by (apply Nat.mul_le_mono_r; lia).
  lia.
Qed.

Lemma expanded_at_padv (i j : nat) :
  (i < rows x)%nat → (j < cols x)%nat →
  expanded_at g i j = Some (padv g i j).
Proof.
  intros Hi Hj. unfold expanded_at, padv.
  apply list_lookup_lookup_total_lt. by apply pad_in_buffer.
Qed.

Lemma cellv_padv (r c : nat) : cellv g r c = padv g (r + 1) (c + 1).
Proof. done. Qed.

Lemma board_at_expanded (r c : nat) :
  board_at g r c = expanded_at g (r + 1) (c + 1).
Proof. done. Qed.

Lemma board_at_cellv (r c : nat) :
  (r < m)%nat → (c < n)%nat → board_at g r c = Some (cellv g r c).
Proof.
  intros Hr Hc. rewrite board_at_expanded, cellv_padv.
  apply expanded_at_padv; subst m n; lia.
Qed.

Lemma board_values_pure :
  board_values g = Ok ((λ rc, cellv g rc.1 rc.2) <$> cells m n).
Proof.
  unfold board_values, board_shape. fold x m n.
  apply mapM_Ok. intros [r c] [Hr Hc]%elem_of_cells.
  pose proof (board_at_cellv r c Hr Hc) as Hat. unfold board_at in Hat.
  unfold read. fold x in Hat. by rewrite Hat.
Qed.

Lemma strided_at_neighbors (r c i j : nat) :
  (r < m)%nat → (c < n)%nat → (i < 3)%nat → (j < 3)%nat →
  strided_at (get_all_neighbors g) r c i j = Ok (padv g (r + i) (c + j)).
Proof.
  intros Hr Hc Hi Hj.
  pose proof (expanded_at_padv (r + i) (c + j)) as Hat.
  unfold expanded_at in Hat. fold x in Hat.
  unfold strided_at, read. cbn. fold x.
  replace (r * cols x + c * 1 + i * cols x + j * 1)%nat
    with ((r + i) * cols x + (c + j))%nat by lia.
  rewrite Hat; [done|subst m n; lia..].
Qed.

Lemma np_sum_pure :
  np_sum_last2 (get_all_neighbors g)
  = Ok ((λ rc, wsum g rc.1 rc.2) <$> cells m n).
Proof.
  unfold np_sum_last2, get_all_neighbors, board_shape, strides, as_strided.
  cbv beta iota. unfold vshape.
  fold x m n. apply mapM_Ok. intros [r c] [Hr Hc]%elem_of_cells.
  rewrite (mapM_Ok _ (λ ij, padv g (r + ij.1) (c + ij.2))).
  - unfold wsum, mbind, result_bind. reflexivity.
  - intros [i j] [Hi Hj]%elem_of_cells. by apply strided_at_neighbors.
Qed.

Lemma all_num_neighbors_pure :
  all_num_neighbors g = Ok ((λ rc, count g rc.1 rc.2) <$> cells m n).
Proof.
  unfold all_num_neighbors. rewrite np_sum_pure, board_values_pure.
  unfold mbind, result_bind. rewrite zip_with_fmap_same.
  unfold count. reflexivity.
Qed.
End generation.

(** ** Machine arithmetic stays exact on cell values *)

Lemma to_uint64_small v : 0 ≤ v < 18446744073709551616 → to_uint64 v = v.
Proof. intros Hv. unfold to_uint64. apply Z.mod_small. exact Hv. Qed.

Lemma to_uint8_small v : 0 ≤ v < 256 → to_uint8 v = v.
Proof. intros Hv. unfold to_uint8. by apply Z.mod_small. Qed.

Lemma foldl_uint64_sum (l : list Z) (a : Z) :
  Forall (λ v, 0 ≤ v ≤ 255) l →
  0 ≤ a → a + 255 * Z.of_nat (length l) < 18446744073709551616 →
  foldl (λ acc x, to_uint64 (acc + x)) a l = a + sum_Z l.
Proof.
  intros Hl. revert a.
  induction Hl as [|v l Hv _ IH]; intros a Ha Hsmall;
    cbn [foldl sum_Z foldr length] in *; [lia|].
  fold (sum_Z l). rewrite to_uint64_small by lia.
  rewrite IH by lia. lia.
Qed.

Lemma cells_3_3 :
  cells 3 3
  = [ (0, 0); (0, 1); (0, 2); (1, 0); (1, 1); (1, 2); (2, 0); (2, 1); (2, 2) ]%nat.
Proof. reflexivity. Qed.

(** ** The rule table *)

Lemma LOOKUP_binary : Forall (Forall (λ v, v = 0 ∨ v = 1)) LOOKUP.
Proof.
  unfold LOOKUP.
  repeat first [ apply Forall_nil_2 | apply Forall_cons_2
               | left; reflexivity | right; reflexivity ].
Qed.

Lemma np_index_table (s : nat) (k : Z) :
  (s < 2)%nat → 0 ≤ k ≤ 8 → np_index (LOOKUP !!! s) k = Ok (table s k).
Proof.
  intros Hs Hk.
  assert (k = 0 ∨ k = 1 ∨ k = 2 ∨ k = 3 ∨ k = 4 ∨ k = 5 ∨ k = 6 ∨ k = 7 ∨ k = 8)
    as Hcases by lia.
  destruct s as [|[|s]]; [| |lia];
    destruct Hcases as [->|[->|[->|[->|[->|[->|[->|[->| ->]]]]]]]]; reflexivity.
Qed.

Lemma table_dead (k : Z) : 0 ≤ k ≤ 8 → table 0 k = Z.b2z (k =? 3).
Proof.
  intros Hk.
  assert (k = 0 ∨ k = 1 ∨ k = 2 ∨ k = 3 ∨ k = 4 ∨ k = 5 ∨ k = 6 ∨ k = 7 ∨ k = 8)
    as Hcases by lia.
  destruct Hcases as [->|[->|[->|[->|[->|[->|[->|[->| ->]]]]]]]]; reflexivity.
Qed.

Lemma table_alive (k : Z) :
  0 ≤ k ≤ 8 → table 1 k = Z.b2z ((k =? 2) || (k =? 3)).
Proof.
  intros Hk.
  assert (k = 0 ∨ k = 1 ∨ k = 2 ∨ k = 3 ∨ k = 4 ∨ k = 5 ∨ k = 6 ∨ k = 7 ∨ k = 8)
    as Hcases by lia.
  destruct Hcases as [->|[->|[->|[->|[->|[->|[->|[->| ->]]]]]]]]; reflexivity.
Qed.

(** ** One generation on a binary board *)

Section binary.
Variable g : ConwayGameOfLife.

Let x := expanded_board g.
Let m := (rows x - 2)%nat.
Let n := (cols x - 2)%nat.

Hypothesis Hlookup : lookup g = LOOKUP.
Hypothesis Hlen : length (buf x) = (rows x * cols x)%nat.
Hypothesis Hrows : (2 ≤ rows x)%nat.
Hypothesis Hcols : (2 ≤ cols x)%nat.
Hypothesis Hbin : Forall (λ v, v = 0 ∨ v = 1) (buf x).

Lemma padv_binary (i j : nat) :
  (i < rows x)%nat → (j < cols x)%nat → padv g i j = 0 ∨ padv g i j = 1.
Proof.
  intros Hi Hj.
  assert (expanded_at g i j = Some (padv g i j)) as Hat
    by (apply expanded_at_padv; done).
  unfold expanded_at in Hat. rewrite Forall_lookup in Hbin. eauto.
Qed.

Lemma cellv_binary (r c : nat) :
  (r < m)%nat → (c < n)%nat → cellv g r c = 0 ∨ cellv g r c = 1.
Proof.
  intros Hr Hc. rewrite cellv_padv. apply padv_binary; index_bounds.
Qed.

Lemma window_pure (r c : nat) :
  (r < m)%nat → (c < n)%nat →
  window g r c = Some ((λ ij, padv g (r + ij.1) (c + ij.2)) <$> cells 3 3).
Proof.
  intros Hr Hc. unfold window.
  apply (mapM_Some_fmap _ (λ ij, padv g (r + ij.1) (c + ij.2))).
  intros [i j] [Hi Hj]%elem_of_cells.
  apply expanded_at_padv; try done; index_bounds.
Qed.

Lemma window_binary (r c : nat) :
  (r < m)%nat → (c < n)%nat →
  Forall (λ v, 0 ≤ v ≤ 1)
         ((λ ij, padv g (r + ij.1) (c + ij.2)) <$> cells 3 3).
Proof.
  intros Hr Hc. apply Forall_fmap, Forall_forall.
  intros [i j] [Hi Hj]%elem_of_cells. cbn.
  destruct (padv_binary (r + i) (c + j)) as [-> | ->]; index_bounds.
Qed.

Lemma wsum_sum (r c : nat) :
  (r < m)%nat → (c < n)%nat →
  wsum g r c = sum_Z ((λ ij, padv g (r + ij.1) (c + ij.2)) <$> cells 3 3).
Proof.
  intros Hr Hc. unfold wsum. rewrite foldl_uint64_sum; [lia| |lia|].
  - eapply Forall_impl; [by apply window_binary|]. cbn. lia.
  - rewrite length_fmap, length_cells. lia.
Qed.

Lemma count_sum (r c : nat) :
  (r < m)%nat → (c < n)%nat →
  count g r c
  = sum_Z ((λ ij, padv g (r + ij.1) (c + ij.2)) <$> cells 3 3) - cellv g r c
  ∧ 0 ≤ count g r c ≤ 8.
Proof.
  intros Hr Hc. unfold count. rewrite wsum_sum by done.
  pose proof (window_binary r c Hr Hc) as Hw.
  rewrite cellv_padv. rewrite cells_3_3 in *.
  cbn [fmap list_fmap fst snd sum_Z foldr] in *.
  repeat match goal with
         | H : Forall _ (_ :: _) |- _ => apply Forall_cons in H as [? H]
         end.
  rewrite to_uint64_small by lia. lia.
Qed.

Lemma generation_pure :
  generation g
  = Ok (setitem_board g ((λ rc, next g rc.1 rc.2) <$> cells m n)).
Proof.
  unfold generation.
  rewrite all_num_neighbors_pure by done.
  rewrite board_values_pure by done. fold x m n.
  rewrite Hlookup. unfold mbind, result_bind.
  change (np_index LOOKUP 1) with (Ok (LOOKUP !!! 1%nat)).
  change (np_index LOOKUP 0) with (Ok (LOOKUP !!! 0%nat)).
  cbv beta iota.
  rewrite (mapM_fmap_Ok _ _ (λ rc, table 1 (count g rc.1 rc.2))).
  2:{ intros [r c] [Hr Hc]%elem_of_cells. apply np_index_table; [lia|].
      by apply count_sum. }
  rewrite (mapM_fmap_Ok _ _ (λ rc, table 0 (count g rc.1 rc.2))).
  2:{ intros [r c] [Hr Hc]%elem_of_cells. apply np_index_table; [lia|].
      by apply count_sum. }
  unfold np_where. rewrite !zip_with_fmap_same.
  unfold next. reflexivity.
Qed.

Lemma next_binary (r c : nat) :
  (r < m)%nat → (c < n)%nat → next g r c = 0 ∨ next g r c = 1.
Proof.
  intros Hr Hc. unfold next.
  destruct (count_sum r c Hr Hc) as [_ Hk].
  rewrite table_dead, table_alive by done.
  destruct (cellv g r c =? 0); [destruct (count g r c =? 3)|
    destruct ((count g r c =? 2) || (count g r c =? 3))]; cbn; lia.
Qed.
End binary.

(** ** Validity is established by the constructor and kept by each step *)

Section step.
Variable g : ConwayGameOfLife.
Hypothesis Hvalid : valid g.

Let x := expanded_board g.
Let m := (rows x - 2)%nat.
Let n := (cols x - 2)%nat.

Lemma generation_step : generation g = Ok (step g).
Proof.
  destruct Hvalid. rewrite generation_pure by (done || lia). done.
Qed.

Lemma step_shape : board_shape (step g) = board_shape g.
Proof. apply setitem_board_shape. Qed.

Lemma step_board_at (r c : nat) :
  (r < m)%nat → (c < n)%nat → board_at (step g) r c = Some (next g r c).
Proof.
  intros Hr Hc. destruct Hvalid. unfold step.
  rewrite setitem_board_interior;
    [|done|rewrite length_fmap, length_cells; done|lia|lia|done|done].
  cbn [board_shape fst snd]. fold x m n.
  rewrite list_lookup_fmap, cells_lookup by done. cbn.
  rewrite to_uint8_small; [done|].
  destruct (next_binary g) with (r := r) (c := c) as [-> | ->];
    first [done|lia].
Qed.

Lemma step_ring (i j : nat) :
  (j < cols x)%nat → ¬ ((1 ≤ i ≤ m)%nat ∧ (1 ≤ j ≤ n)%nat) →
  expanded_at (step g) i j = expanded_at g i j.
Proof.
  intros Hj Hout. by apply setitem_board_ring.
Qed.

Lemma step_valid : valid (step g).
Proof.
  pose proof Hvalid as [Hl Hr Hc Hlen Hbin Hborder].
  unfold step. split.
  - by rewrite setitem_board_lookup.
  - by rewrite setitem_board_rows.
  - by rewrite setitem_board_cols.
  - by rewrite setitem_board_length, setitem_board_rows, setitem_board_cols.
  - apply setitem_board_Forall; [done|].
    apply Forall_fmap, Forall_forall.
    intros [r c] [Hr' Hc']%elem_of_cells. cbn [board_shape fst snd] in *.
    cbn. rewrite to_uint8_small.
    + apply next_binary; first [done|lia].
    + destruct (next_binary g) with (r := r) (c := c) as [-> | ->];
        first [done|lia].
  - intros i j (Hi & Hj & Hring). fold (step g) in *.
    unfold step in Hi, Hj, Hring.
    rewrite setitem_board_rows in Hi, Hring.
    rewrite setitem_board_cols in Hj, Hring.
    fold (step g). rewrite step_ring; [|done|index_bounds].
    apply Hborder. by split_and!.
Qed.
End step.

(** What the constructor was given, read off a successful construction. *)
Lemma init_inv (b : pyobj) (g : ConwayGameOfLife) :
  __init__ b = Ok g →
  ∃ m n d,
    b = PyNdarray (NdArray [m; n] d) ∧ (2 ≤ m)%nat ∧ (2 ≤ n)%nat ∧
    Forall (λ v, v = 0 ∨ v = 1) d ∧
    g = setitem_board
          (Game LOOKUP
             (Uint8_2d (m + 2) (n + 2) (replicate ((m + 2) * (n + 2)) 0))) d.
Proof.
  destruct b as [z|l|[sh d]]; cbn; try discriminate.
  destruct (existsb _ sh) eqn:Hshape; [discriminate|].
  destruct (forallb _ d) eqn:Hvalues; cbn; [|discriminate].
  destruct sh as [|m [|n [|? ?]]]; try discriminate.
  intros [= <-]. exists m, n, d. cbn in Hshape.
  apply orb_false_elim in Hshape as [Hm Hn%orb_false_elim].
  destruct Hn as [Hn _]. apply Nat.leb_gt in Hm, Hn.
  split_and!; [done|lia|lia| |done].
  apply Forall_forall. intros v Hv%list_elem_of_In.
  rewrite forallb_forall in Hvalues. specialize (Hvalues v Hv).
  cbn in Hvalues. rewrite orb_false_r in Hvalues.
  apply orb_true_iff in Hvalues as [?%Z.eqb_eq | ?%Z.eqb_eq]; auto.
Qed.

Lemma zeros_valid_shape (m n : nat) (d : list Z) :
  (2 ≤ m)%nat → (2 ≤ n)%nat → Forall (λ v, v = 0 ∨ v = 1) d →
  valid (setitem_board
           (Game LOOKUP
              (Uint8_2d (m + 2) (n + 2) (replicate ((m + 2) * (n + 2)) 0))) d).
Proof.
  intros Hm Hn Hd. split.
  - by rewrite setitem_board_lookup.
  - rewrite setitem_board_rows. cbn. lia.
  - rewrite setitem_board_cols. cbn. lia.
  - rewrite setitem_board_length, setitem_board_rows, setitem_board_cols.
    cbn. by rewrite length_replicate.
  - apply setitem_board_Forall.
    + cbn. apply Forall_replicate. by left.
    + eapply Forall_impl; [exact Hd|]. by intros v [-> | ->]; [left|right].
  - intros i j (Hi & Hj & Hring).
    rewrite setitem_board_rows in Hi, Hring.
    rewrite setitem_board_cols in Hj, Hring. cbn in Hi, Hj, Hring.
    rewrite setitem_board_ring; cbn; [|done|lia].
    unfold expanded_at. cbn. apply lookup_replicate_2.
    assert ((i + 1) * (n + 2) ≤ (m + 2) * (n + 2))%nat
      by (apply Nat.mul_le_mono_r; lia).
    lia.
Qed.

Lemma init_valid (b : pyobj) (g : ConwayGameOfLife) :
  __init__ b = Ok g → valid g.
Proof.
  intros (m & n & d & _ & Hm & Hn & Hd & ->)%init_inv.
  by apply zeros_valid_shape.
Qed.

(** ** The loop of [run_iterations] in closed form *)

Lemma board_values_snapshot (g : ConwayGameOfLife) :
  valid g → board_values g = Ok (data (snapshot g)).
Proof.
  intros []. rewrite board_values_pure by (done || lia). done.
Qed.

Lemma iteration_valid (verbose : bool) (g : ConwayGameOfLife) (out : stdout) :
  valid g →
  iteration verbose (g, out)
  = Ok (step g, if verbose then out ++ [snapshot (step g)] else out).
Proof.
  intros Hg. unfold iteration. rewrite generation_step by done.
  unfold mbind, result_bind. destruct verbose; [|done].
  rewrite board_values_snapshot by (by apply step_valid). done.
Qed.

Lemma steps_valid (k : nat) (g : ConwayGameOfLife) :
  valid g → valid (steps k g).
Proof.
  revert g. induction k as [|k IH]; intros g Hg; [done|].
  cbn [steps]. by apply IH, step_valid.
Qed.

Lemma steps_shape (k : nat) (g : ConwayGameOfLife) :
  board_shape (steps k g) = board_shape g.
Proof.
  revert g. induction k as [|k IH]; intros g; [done|].
  cbn [steps]. by rewrite IH, step_shape.
Qed.

Lemma for_range_valid (k : nat) (verbose : bool) (g : ConwayGameOfLife)
  (out : stdout) :
  valid g →
  for_range k (iteration verbose) (g, out)
  = Ok (steps k g, if verbose then out ++ printed k g else out).
Proof.
  revert g out. induction k as [|k IH]; intros g out Hg.
  - cbn. destruct verbose; by rewrite ?app_nil_r.
  - cbn [for_range]. rewrite iteration_valid by done.
    unfold mbind, result_bind. rewrite IH by (by apply step_valid).
    cbn [steps printed]. destruct verbose; [|done].
    by rewrite <- app_assoc.
Qed.

Lemma run_iterations_valid (g : ConwayGameOfLife) (n : Z) (verbose : bool)
  (out : stdout) :
  valid g →
  run_iterations g n verbose out
  = Ok (steps (Z.to_nat n) g,
        if verbose then out ++ printed (Z.to_nat n) g else out).
Proof. intros Hg. unfold run_iterations. by apply for_range_valid. Qed.

Lemma reachable_valid (g : ConwayGameOfLife) : reachable g → valid g.
Proof.
  induction 1 as [b g Hinit|g n verbose out g' out' _ IH Hrun].
  - by eapply init_valid.
  - rewrite run_iterations_valid in Hrun by done.
    injection Hrun as <- _. by apply steps_valid.
Qed.

(** ** The step against Conway's rule *)

Lemma in_board_true (m n : nat) (r c : Z) :
  in_board m n r c = true ↔ 0 ≤ r < Z.of_nat m ∧ 0 ≤ c < Z.of_nat n.
Proof.
  unfold in_board. rewrite !andb_true_iff, !Z.leb_le, !Z.ltb_lt. lia.
Qed.

Lemma in_board_false (m n : nat) (r c : Z) :
  ¬ (0 ≤ r < Z.of_nat m ∧ 0 ≤ c < Z.of_nat n) → in_board m n r c = false.
Proof.
  intros Hout. destruct (in_board m n r c) eqn:Hin; [|done].
  by apply in_board_true in Hin.
Qed.

Section rule.
Variable g : ConwayGameOfLife.
Hypothesis Hvalid : valid g.

Let x := expanded_board g.
Let m := (rows x - 2)%nat.
Let n := (cols x - 2)%nat.

(** A padded cell holds 1 exactly where the logical board is alive. *)
Lemma padv_logical (i j : nat) (r c : Z) :
  r = Z.of_nat i - 1 → c = Z.of_nat j - 1 →
  (i < rows x)%nat → (j < cols x)%nat →
  padv g i j = Z.b2z (logical g r c).
Proof.
  intros -> -> Hi Hj. pose proof Hvalid as [_ Hr Hc Hlen Hbin Hborder].
  assert (expanded_at g i j = Some (padv g i j)) as Hat
    by (apply expanded_at_padv; first [done|lia]).
  unfold logical, board_shape. fold x m n.
  destruct (decide ((1 ≤ i ≤ m)%nat ∧ (1 ≤ j ≤ n)%nat)) as [Hin|Hout].
  - rewrite (proj2 (in_board_true m n _ _)) by lia.
    replace (Z.to_nat (Z.of_nat i - 1)) with (i - 1)%nat by lia.
    replace (Z.to_nat (Z.of_nat j - 1)) with (j - 1)%nat by lia.
    rewrite board_at_expanded.
    replace (i - 1 + 1)%nat with i by lia.
    replace (j - 1 + 1)%nat with j by lia.
    rewrite Hat.
    destruct (padv_binary g) with (i := i) (j := j) as [-> | ->];
      first [done|lia].
  - rewrite in_board_false by index_bounds. cbn.
    rewrite Hborder in Hat; [congruence|].
    split_and!; [done..|]. index_bounds.
Qed.

(** The count the stepper computes is the number of live neighbours on
    the logical board: the ring adds nothing to it. *)
Lemma count_live (r c : nat) :
  (r < m)%nat → (c < n)%nat →
  count g r c = live_neighbours (logical g) (Z.of_nat r) (Z.of_nat c).
Proof.
  intros Hr Hc. pose proof Hvalid as [Hl Hrows Hcols Hlen Hbin _].
  unfold live_neighbours, neighbours.
  destruct (count_sum g) with (r := r) (c := c) as [-> _];
    try done; try lia.
  rewrite cellv_padv, cells_3_3. cbn [fmap list_fmap fst snd sum_Z foldr].
  set (R := Z.of_nat r). set (C := Z.of_nat c).
  rewrite (padv_logical (r + 0) (c + 0) (R - 1) (C - 1)) by index_bounds.
  rewrite (padv_logical (r + 0) (c + 1) (R - 1) C) by index_bounds.
  rewrite (padv_logical (r + 0) (c + 2) (R - 1) (C + 1)) by index_bounds.
  rewrite (padv_logical (r + 1) (c + 0) R (C - 1)) by index_bounds.
  rewrite (padv_logical (r + 1) (c + 1) R C) by index_bounds.
  rewrite (padv_logical (r + 1) (c + 2) R (C + 1)) by index_bounds.
  rewrite (padv_logical (r + 2) (c + 0) (R + 1) (C - 1)) by index_bounds.
  rewrite (padv_logical (r + 2) (c + 1) (R + 1) C) by index_bounds.
  rewrite (padv_logical (r + 2) (c + 2) (R + 1) (C + 1)) by index_bounds.
  cbn [List.filter fst snd].
  destruct (logical g (R - 1) (C - 1)), (logical g (R - 1) C),
    (logical g (R - 1) (C + 1)), (logical g R (C - 1)), (logical g R C),
    (logical g R (C + 1)), (logical g (R + 1) (C - 1)),
    (logical g (R + 1) C), (logical g (R + 1) (C + 1)); reflexivity.
Qed.

Lemma next_successor (r c : nat) :
  (r < m)%nat → (c < n)%nat →
  next g r c
  = Z.b2z (successor m n (logical g) (Z.of_nat r) (Z.of_nat c)).
Proof.
  intros Hr Hc. pose proof Hvalid as [Hl Hrows Hcols Hlen Hbin _].
  unfold next, successor.
  rewrite (proj2 (in_board_true m n _ _)) by lia. rewrite andb_true_l.
  destruct (count_sum g) with (r := r) (c := c) as [_ Hk];
    try done; try lia.
  rewrite table_dead, table_alive by done.
  rewrite <- count_live by done.
  rewrite cellv_padv.
  rewrite (padv_logical (r + 1) (c + 1) (Z.of_nat r) (Z.of_nat c))
    by index_bounds.
  generalize (count g r c). intros k.
  destruct (logical g (Z.of_nat r) (Z.of_nat c)); reflexivity.
Qed.

(** The board after one step is the successor of the board before. *)
Lemma logical_step (r c : Z) :
  logical (step g) r c = successor m n (logical g) r c.
Proof.
  unfold logical at 1. rewrite step_shape. unfold board_shape. fold x m n.
  unfold successor at 1.
  destruct (in_board m n r c) eqn:Hin; [|done].
  apply in_board_true in Hin. rewrite andb_true_l.
  rewrite step_board_at by (first [done|index_bounds]).
  rewrite next_successor by index_bounds.
  rewrite !Z2Nat.id by lia. unfold successor.
  rewrite (proj2 (in_board_true m n _ _)) by lia. rewrite andb_true_l.
  by destruct (life_rule _ _).
Qed.
End rule.

(** * The claims *)

Lemma blinker_init : __init__ blinker_board = Ok blinker.
Proof. vm_compute. reflexivity. Defined.

Lemma blinker_reachable : reachable blinker.
Proof. exact (reach_init blinker_board blinker blinker_init). Defined.

(** C1. One generation, on every game a program can hold (built by the
    constructor and run any number of times): [run_iterations(1)] returns,
    the board keeps its shape, every logical cell [(r, c)] becomes
    [lookup[status][count]] where [status] is the cell and [count] is the sum
    of its 3x3 window (whose centre is the cell) less [status], all of them
    read in the game as it was before the call, and the new logical board is
    the Game-of-Life successor of the old one. *)
Theorem C1_generation_step (g : ConwayGameOfLife) (verbose : bool)
  (out : stdout) :
  reachable g →
  ∃ g' out',
    run_iterations g 1 verbose out = Ok (g', out') ∧
    board_shape g' = board_shape g ∧
    (∀ r c, (r < (board_shape g).1)%nat → (c < (board_shape g).2)%nat →
       ∃ status w nxt,
         board_at g r c = Some status ∧
         window g r c = Some w ∧
         w !! 4%nat = Some status ∧
         get_lookup g status (sum_Z w - status) = Ok nxt ∧
         board_at g' r c = Some nxt) ∧
    (∀ r c : Z,
       logical g' r c
       = successor (board_shape g).1 (board_shape g).2 (logical g) r c).
Proof.
  intros Hg%reachable_valid.
  exists (step g), (if verbose then out ++ [snapshot (step g)] else out).
  pose proof Hg as [Hl Hrows Hcols Hlen Hbin _].
  split_and!.
  - rewrite run_iterations_valid by done. reflexivity.
  - apply step_shape.
  - cbn [board_shape fst snd]. intros r c Hr Hc.
    exists (cellv g r c),
      ((λ ij, padv g (r + ij.1) (c + ij.2)) <$> cells 3 3), (next g r c).
    destruct (count_sum g) with (r := r) (c := c) as [Hcnt Hk];
      try done; try lia.
    split_and!.
    + apply board_at_cellv; first [done|lia].
    + apply window_pure; first [done|lia].
    + rewrite cellv_padv, cells_3_3. reflexivity.
    + rewrite <- Hcnt. unfold get_lookup, next. rewrite Hl.
      destruct (cellv_binary g) with (r := r) (c := c) as [-> | ->];
        try done; try lia.
      * change (np_index LOOKUP 0) with (Ok (LOOKUP !!! 0%nat)).
        apply (np_index_table 0); [lia|done].
      * change (np_index LOOKUP 1) with (Ok (LOOKUP !!! 1%nat)).
        apply (np_index_table 1); [lia|done].
    + by apply step_board_at.
  - intros r c. by apply logical_step.
Qed.

Lemma C1_witness :
  reachable blinker ∧
  ∃ g' out',
    run_iterations blinker 1 false [] = Ok (g', out') ∧
    board_shape g' = board_shape blinker ∧
    (∀ r c, (r < (board_shape blinker).1)%nat →
            (c < (board_shape blinker).2)%nat →
       ∃ status w nxt,
         board_at blinker r c = Some status ∧
         window blinker r c = Some w ∧
         w !! 4%nat = Some status ∧
         get_lookup blinker status (sum_Z w - status) = Ok nxt ∧
         board_at g' r c = Some nxt) ∧
    (∀ r c : Z,
       logical g' r c
       = successor (board_shape blinker).1 (board_shape blinker).2
                   (logical blinker) r c).
Proof.
  split; [exact blinker_reachable|].
  apply (C1_generation_step blinker false []). exact blinker_reachable.
Defined.

(** C2. From any board the constructor accepts, a run of any number of
    generations returns, and afterwards every cell of the logical board is 0
    or 1; the rule table the stepper writes from holds only 0s and 1s. *)
Theorem C2_binary_invariant (b : pyobj) (g : ConwayGameOfLife) (k : Z)
  (verbose : bool) (out : stdout) :
  __init__ b = Ok g →
  ∃ g' out',
    run_iterations g k verbose out = Ok (g', out') ∧
    (∀ r c, (r < (board_shape g').1)%nat → (c < (board_shape g').2)%nat →
       board_at g' r c = Some 0 ∨ board_at g' r c = Some 1) ∧
    Forall (Forall (λ v, v = 0 ∨ v = 1)) (lookup g').
Proof.
  intros Hg%init_valid.
  exists (steps (Z.to_nat k) g),
    (if verbose then out ++ printed (Z.to_nat k) g else out).
  pose proof (steps_valid (Z.to_nat k) g Hg) as Hg'.
  pose proof Hg' as [Hl Hrows Hcols Hlen Hbin _].
  split_and!.
  - by apply run_iterations_valid.
  - cbn [board_shape fst snd]. intros r c Hr Hc.
    rewrite board_at_cellv; try done; try lia.
    destruct (cellv_binary (steps (Z.to_nat k) g)) with (r := r) (c := c)
      as [Hv | Hv]; try done; try lia; rewrite Hv; auto.
  - rewrite Hl. apply LOOKUP_binary.
Qed.

Lemma C2_witness :
  __init__ blinker_board = Ok blinker ∧
  ∃ g' out',
    run_iterations blinker 2 true [] = Ok (g', out') ∧
    (∀ r c, (r < (board_shape g').1)%nat → (c < (board_shape g').2)%nat →
       board_at g' r c = Some 0 ∨ board_at g' r c = Some 1) ∧
    Forall (Forall (λ v, v = 0 ∨ v = 1)) (lookup g').
Proof.
  split; [exact blinker_init|].
  apply (C2_binary_invariant blinker_board blinker 2 true []).
  exact blinker_init.
Defined.

(** C3. From any board the constructor accepts: every cell of the ring of
    the padded buffer (first and last padded row, first and last padded
    column) is 0 right after construction and after a run of any number of
    generations, and the neighbour totals the stepper then computes are the
    numbers of live neighbours on the logical board alone. *)
Theorem C3_border_dead (b : pyobj) (g : ConwayGameOfLife) (k : Z)
  (verbose : bool) (out : stdout) :
  __init__ b = Ok g →
  (∀ i j, on_border g i j → expanded_at g i j = Some 0) ∧
  ∃ g' out',
    run_iterations g k verbose out = Ok (g', out') ∧
    (∀ i j, on_border g' i j → expanded_at g' i j = Some 0) ∧
    ∃ cnt,
      all_num_neighbors g' = Ok cnt ∧
      ∀ r c, (r < (board_shape g').1)%nat → (c < (board_shape g').2)%nat →
        cnt !! (r * (board_shape g').2 + c)%nat
        = Some (live_neighbours (logical g') (Z.of_nat r) (Z.of_nat c)).
Proof.
  intros Hg%init_valid. split; [by destruct Hg|].
  exists (steps (Z.to_nat k) g),
    (if verbose then out ++ printed (Z.to_nat k) g else out).
  pose proof (steps_valid (Z.to_nat k) g Hg) as Hg'.
  pose proof Hg' as [Hl Hrows Hcols Hlen Hbin Hborder].
  split_and!; [by apply run_iterations_valid|done|].
  eexists. split.
  - apply all_num_neighbors_pure; first [done|lia].
  - cbn [board_shape fst snd]. intros r c Hr Hc.
    rewrite list_lookup_fmap, cells_lookup by done. cbn [fmap option_fmap option_map fst snd].
    f_equal. by apply count_live.
Qed.

Lemma C3_witness :
  __init__ blinker_board = Ok blinker ∧
  (∀ i j, on_border blinker i j → expanded_at blinker i j = Some 0) ∧
  ∃ g' out',
    run_iterations blinker 3 false [] = Ok (g', out') ∧
    (∀ i j, on_border g' i j → expanded_at g' i j = Some 0) ∧
    ∃ cnt,
      all_num_neighbors g' = Ok cnt ∧
      ∀ r c, (r < (board_shape g').1)%nat → (c < (board_shape g').2)%nat →
        cnt !! (r * (board_shape g').2 + c)%nat
        = Some (live_neighbours (logical g') (Z.of_nat r) (Z.of_nat c)).
Proof.
  split; [exact blinker_init|].
  apply (C3_border_dead blinker_board blinker 3 false []).
  exact blinker_init.
Defined.

(** C4. The rule table of every game a program can hold is the constant
    table of the constructor, and for a status in {0, 1} and a count in
    0..8 [get_lookup] returns, for a dead cell, 1 exactly when the count is
    3, and for a live cell, 1 exactly when the count is 2 or 3. *)
Theorem C4_rule_table (g : ConwayGameOfLife) (status count : Z) :
  reachable g → status = 0 ∨ status = 1 → 0 ≤ count ≤ 8 →
  lookup g = [ [0;0;0;1;0;0;0;0;0]; [0;0;1;1;0;0;0;0;0] ] ∧
  get_lookup g status count
  = Ok (if status =? 0 then Z.b2z (count =? 3)
        else Z.b2z ((count =? 2) || (count =? 3))).
Proof.
  intros [Hl _ _ _ _ _]%reachable_valid Hstatus Hcount.
  split; [exact Hl|]. unfold get_lookup. rewrite Hl.
  destruct Hstatus as [-> | ->].
  - change (np_index LOOKUP 0) with (Ok (LOOKUP !!! 0%nat)).
    rewrite <- table_dead by done. apply (np_index_table 0); [lia|done].
  - change (np_index LOOKUP 1) with (Ok (LOOKUP !!! 1%nat)).
    rewrite <- table_alive by done. apply (np_index_table 1); [lia|done].
Qed.

Lemma C4_witness :
  reachable blinker ∧ (1 = 0 ∨ 1 = 1) ∧ 0 ≤ 2 ≤ 8 ∧
  lookup blinker = [ [0;0;0;1;0;0;0;0;0]; [0;0;1;1;0;0;0;0;0] ] ∧
  get_lookup blinker 1 2
  = Ok (if 1 =? 0 then Z.b2z (2 =? 3) else Z.b2z ((2 =? 2) || (2 =? 3))).
Proof.
  split; [exact blinker_reachable|].
  split; [right; reflexivity|]. split; [lia|].
  apply (C4_rule_table blinker 1 2);
    [exact blinker_reachable|right; reflexivity|lia].
Defined.

(** C5. For every game, every [k] and either verbosity, [k] calls of
    [run_iterations(1)] one after the other end in the same game, with the
    same output, as the single call [run_iterations(k)]: the generations run
    in order, none skipped. *)
Theorem C5_single_steps_compose (k : nat) (verbose : bool)
  (g : ConwayGameOfLife) (out : stdout) :
  single_steps k verbose (g, out) = run_iterations g (Z.of_nat k) verbose out.
Proof.
  unfold run_iterations. rewrite Nat2Z.id. revert g out.
  induction k as [|k IH]; intros g out; [done|].
  cbn [single_steps for_range fst snd]. unfold run_iterations.
  change (Z.to_nat 1) with 1%nat. cbn [for_range].
  destruct (iteration verbose (g, out)) as [[g' out']|e]; [|done].
  unfold mbind, result_bind. apply IH.
Qed.

(** The value check of the constructor, as a property of the elements. *)
Lemma values_check_true (d : list Z) :
  forallb (λ v, existsb (Z.eqb v) [0; 1]) d = true
  ↔ Forall (λ v, v = 0 ∨ v = 1) d.
Proof.
  induction d as [|v d IH]; cbn [forallb].
  - split; [constructor|done].
  - rewrite andb_true_iff, IH, Forall_cons. cbn [existsb].
    rewrite orb_false_r, orb_true_iff, !Z.eqb_eq. done.
Qed.

Lemma values_check_false (d : list Z) :
  forallb (λ v, existsb (Z.eqb v) [0; 1]) d = false
  ↔ Exists (λ v, v ≠ 0 ∧ v ≠ 1) d.
Proof.
  induction d as [|v d IH]; cbn [forallb].
  - split; [done|by intros ?%Exists_nil].
  - rewrite andb_false_iff, IH, Exists_cons. cbn [existsb].
    rewrite orb_false_r, orb_false_iff, !Z.eqb_neq. done.
Qed.

(** C6, as stated, fails on a 1 x 3 array holding a 2: it has an entry other
    than 0 and 1, yet the constructor raises the shape error, not the value
    error, because the shape check comes first. *)
Lemma C6_counterexample :
  Exists (λ v, v ≠ 0 ∧ v ≠ 1) [0; 1; 2] ∧
  __init__ (np_array2 1 3 [0; 1; 2]) = Raise InvalidShapeError ∧
  __init__ (np_array2 1 3 [0; 1; 2]) ≠ Raise InvalidValueError.
Proof.
  split_and!.
  - do 2 apply Exists_cons_tl. apply Exists_cons_hd. lia.
  - reflexivity.
  - discriminate.
Qed.

(** C6, amended. For a two-dimensional integer array of shape [(m, n)]: the
    constructor raises the shape error exactly when [m < 2] or [n < 2]; it
    raises the value error exactly when the shape check is passed and some
    entry is neither 0 nor 1; it builds a game only when both checks are
    passed; and then the game has an [(m+2) x (n+2)] buffer whose interior is
    the input and whose ring is 0. *)
Theorem C6_construction_checks (m n : nat) (d : list Z) :
  length d = (m * n)%nat →
  (__init__ (np_array2 m n d) = Raise InvalidShapeError
   ↔ (m < 2 ∨ n < 2)%nat) ∧
  (__init__ (np_array2 m n d) = Raise InvalidValueError
   ↔ (2 ≤ m)%nat ∧ (2 ≤ n)%nat ∧ Exists (λ v, v ≠ 0 ∧ v ≠ 1) d) ∧
  (∀ g, __init__ (np_array2 m n d) = Ok g →
        (2 ≤ m)%nat ∧ (2 ≤ n)%nat ∧ Forall (λ v, v = 0 ∨ v = 1) d) ∧
  ((2 ≤ m)%nat → (2 ≤ n)%nat → Forall (λ v, v = 0 ∨ v = 1) d →
   ∃ g,
     __init__ (np_array2 m n d) = Ok g ∧
     rows (expanded_board g) = (m + 2)%nat ∧
     cols (expanded_board g) = (n + 2)%nat ∧
     length (buf (expanded_board g)) = ((m + 2) * (n + 2))%nat ∧
     board_shape g = (m, n) ∧
     (∀ r c, (r < m)%nat → (c < n)%nat →
        board_at g r c = d !! (r * n + c)%nat) ∧
     (∀ i j, on_border g i j → expanded_at g i j = Some 0)).
Proof.
  intros Hd.
  assert (__init__ (np_array2 m n d)
          = if (m <? 2)%nat || (n <? 2)%nat then Raise InvalidShapeError
            else if forallb (λ v, existsb (Z.eqb v) [0; 1]) d
                 then Ok (setitem_board
                            (Game LOOKUP
                               (Uint8_2d (m + 2) (n + 2)
                                  (replicate ((m + 2) * (n + 2)) 0))) d)
                 else Raise InvalidValueError) as ->.
  { unfold __init__, np_array2. cbn [shape data existsb].
    rewrite orb_false_r.
    destruct ((m <? 2)%nat || (n <? 2)%nat); [done|].
    by destruct (forallb _ d). }
  destruct (m <? 2)%nat eqn:Hm; [apply Nat.ltb_lt in Hm|apply Nat.ltb_ge in Hm];
    (destruct (n <? 2)%nat eqn:Hn;
     [apply Nat.ltb_lt in Hn|apply Nat.ltb_ge in Hn]);
    cbn [orb].
  1-3: split_and!; [split; [lia|done] | split; [done|lia] | done | lia].
  destruct (forallb _ d) eqn:Hvalues.
  - apply values_check_true in Hvalues. split_and!.
    + split; [done|lia].
    + split; [done|]. intros (_ & _ & Hbad). exfalso.
      apply Exists_exists in Hbad as (v & Hv & Hne).
      rewrite Forall_forall in Hvalues. specialize (Hvalues v Hv). lia.
    + done.
    + intros _ _ _. eexists. split; [reflexivity|].
      pose proof (zeros_valid_shape m n d Hm Hn Hvalues) as [_ _ _ _ _ Hring].
      rewrite setitem_board_rows, setitem_board_cols, setitem_board_length,
        setitem_board_shape.
      cbn [expanded_board rows cols buf board_shape].
      split_and!;
        [done|done|by rewrite length_replicate
        |unfold board_shape; cbn [expanded_board rows cols]; f_equal; lia
        | |done].
      intros r c Hr Hc.
      rewrite setitem_board_interior; cbn [expanded_board rows cols buf];
        rewrite ?length_replicate, ?Nat.add_sub; try done; try lia.
      destruct (lookup_lt_is_Some_2 d (r * n + c)%nat) as [v Hv].
      { rewrite Hd. assert ((r + 1) * n ≤ m * n)%nat
          by (apply Nat.mul_le_mono_r; lia). lia. }
      rewrite Hv. cbn. f_equal. apply to_uint8_small.
      rewrite Forall_lookup in Hvalues. destruct (Hvalues _ _ Hv); lia.
  - apply values_check_false in Hvalues. split_and!.
    + split; [done|lia].
    + split; [done|]. by intros _.
    + done.
    + intros _ _ Hall. exfalso.
      apply Exists_exists in Hvalues as (v & Hv & Hne).
      rewrite Forall_forall in Hall. specialize (Hall v Hv). lia.
Qed.

Lemma C6_witness :
  length [0; 1; 1; 0] = (2 * 2)%nat ∧
  ∃ g, __init__ (np_array2 2 2 [0; 1; 1; 0]) = Ok g ∧
       board_at g 0 1 = Some 1.
Proof.
  split; [reflexivity|].
  destruct (C6_construction_checks 2 2 [0; 1; 1; 0] eq_refl)
    as (_ & _ & _ & Hok).
  destruct Hok as (g & Hinit & _ & _ & _ & _ & Hcopy & _).
  - lia.
  - lia.
  - repeat (apply Forall_cons_2; [first [left; lia|right; lia]|]).
    apply Forall_nil_2.
  - exists g. split; [exact Hinit|].
    rewrite Hcopy by lia. reflexivity.
Defined.

(** C7. A one-dimensional array of three binary entries passes the three
    checks of the constructor (it is an array, no extent is below 2, every
    entry is 0 or 1) and the construction then stops in the two-axis slice
    with [IndexError], which is none of the constructor's own errors. *)
Theorem C7_one_dimensional_array :
  __init__ (PyNdarray (NdArray [3%nat] [0; 1; 0])) = Raise IndexError ∧
  IndexError ≠ InvalidTypeError ∧ IndexError ≠ InvalidShapeError ∧
  IndexError ≠ InvalidValueError.
Proof. split_and!; [reflexivity|discriminate..]. Qed.

(** What does hold of the constructor beside C7: an object that is no array
    is refused with the type error, an array with an extent below 2 with the
    shape error, and a game is only ever built from a two-dimensional array
    of extents at least 2. *)
Lemma init_not_array (z : Z) (l : list (list Z)) :
  __init__ (PyInt z) = Raise InvalidTypeError ∧
  __init__ (PyList l) = Raise InvalidTypeError.
Proof. done. Qed.

Lemma init_small_extent (sh : list nat) (d : list Z) :
  Exists (λ e, e < 2)%nat sh →
  __init__ (PyNdarray (NdArray sh d)) = Raise InvalidShapeError.
Proof.
  intros Hsmall. unfold __init__. cbn [shape].
  assert (existsb (λ e, e <? 2)%nat sh = true) as ->; [|done].
  apply existsb_exists. apply Exists_exists in Hsmall as (e & He & Hlt).
  exists e. split; [by apply list_elem_of_In|by apply Nat.ltb_lt].
Qed.

Lemma init_two_dimensional (b : pyobj) (g : ConwayGameOfLife) :
  __init__ b = Ok g →
  ∃ m n d, b = PyNdarray (NdArray [m; n] d) ∧ (2 ≤ m)%nat ∧ (2 ≤ n)%nat.
Proof. intros (m & n & d & -> & ? & ? & _)%init_inv. eauto 6. Qed.

(** C8. In every game a program can hold, for a logical cell [(r, c)] and
    [i, j < 3]: the view of [get_all_neighbors] has shape [(m, n, 3, 3)], its
    element [(r, c, i, j)] lies at the offset of [expanded_board[r+i, c+j]],
    that offset is inside the [(m+2) x (n+2)] buffer, so the read returns
    that element, and the centre of the window is the cell itself. *)
Theorem C8_neighbor_window (g : ConwayGameOfLife) (r c i j : nat) :
  reachable g →
  (r < (board_shape g).1)%nat → (c < (board_shape g).2)%nat →
  (i < 3)%nat → (j < 3)%nat →
  vshape (get_all_neighbors g)
  = ((board_shape g).1, (board_shape g).2, 3%nat, 3%nat) ∧
  rows (expanded_board g) = ((board_shape g).1 + 2)%nat ∧
  cols (expanded_board g) = ((board_shape g).2 + 2)%nat ∧
  length (buf (expanded_board g))
  = (((board_shape g).1 + 2) * ((board_shape g).2 + 2))%nat ∧
  strided_offset (get_all_neighbors g) r c i j
  = ((r + i) * cols (expanded_board g) + (c + j))%nat ∧
  (strided_offset (get_all_neighbors g) r c i j
   < length (buf (expanded_board g)))%nat ∧
  (∃ v, strided_at (get_all_neighbors g) r c i j = Ok v ∧
        expanded_at g (r + i) (c + j) = Some v) ∧
  (∃ v, strided_at (get_all_neighbors g) r c 1 1 = Ok v ∧
        board_at g r c = Some v).
Proof.
  intros [_ Hrows Hcols Hlen _ _]%reachable_valid.
  cbn [board_shape fst snd]. intros Hr Hc Hi Hj.
  assert (strided_offset (get_all_neighbors g) r c i j
          = ((r + i) * cols (expanded_board g) + (c + j))%nat) as Hoff.
  { unfold strided_offset. cbn. lia. }
  split_and!.
  - reflexivity.
  - lia.
  - lia.
  - rewrite Hlen. f_equal; lia.
  - exact Hoff.
  - rewrite Hoff. apply pad_in_buffer; first [done|lia].
  - exists (padv g (r + i) (c + j)). split.
    + apply strided_at_neighbors; first [done|lia].
    + apply expanded_at_padv; first [done|lia].
  - exists (cellv g r c). split.
    + rewrite cellv_padv. apply strided_at_neighbors; first [done|lia].
    + apply board_at_cellv; first [done|lia].
Qed.

Lemma C8_witness :
  reachable blinker ∧
  ∃ v, strided_at (get_all_neighbors blinker) 2 2 2 2 = Ok v ∧
       expanded_at blinker (2 + 2) (2 + 2) = Some v.
Proof.
  split; [exact blinker_reachable|].
  destruct (C8_neighbor_window blinker 2 2 2 2 blinker_reachable)
    as (_ & _ & _ & _ & _ & _ & Hread & _); [cbn; lia..|].
  exact Hread.
Defined.

(** C9. [run_iterations(0)] returns at once: the game, with its padded
    buffer, its logical board and its dimensions, is the one it was given,
    and nothing is printed. *)
Theorem C9_zero_generations (g : ConwayGameOfLife) (verbose : bool)
  (out : stdout) :
  run_iterations g 0 verbose out = Ok (g, out).
Proof. reflexivity. Qed.

(** C10. For a negative [n], [run_iterations(n)] raises nothing and returns
    the game it was given, padded buffer and logical board untouched, having
    printed nothing: [range(n)] is empty. *)
Theorem C10_negative_generations (g : ConwayGameOfLife) (n : Z)
  (verbose : bool) (out : stdout) :
  n < 0 → run_iterations g n verbose out = Ok (g, out).
Proof.
  intros Hn. unfold run_iterations.
  replace (Z.to_nat n) with 0%nat by lia. reflexivity.
Qed.

Lemma C10_witness :
  -3 < 0 ∧ run_iterations blinker (-3) true [] = Ok (blinker, []).
Proof.
  split; [lia|]. apply (C10_negative_generations blinker (-3) true []). lia.
Defined.

(** * Further properties of the game *)




Lemma for_range_add {S} (j k : nat) (body : S → result S) (s : S) :
  for_range (j + k) body s = for_range j body s ≫= for_range k body.
Proof.
  revert s. induction j as [|j IH]; intros s; [done|].
  cbn [Nat.add for_range]. destruct (body s) as [s'|e]; [|done].
  unfold mbind, result_bind. apply IH.
Qed.

(** X2. For [a, b >= 0], on any game: [run_iterations(a)] followed by
    [run_iterations(b)] on the game it leaves ends as [run_iterations(a + b)]
    does, in the game, in what was printed and in the error raised. *)
Theorem X2_run_iterations_add (g : ConwayGameOfLife) (a b : Z)
  (verbose : bool) (out : stdout) :
  0 ≤ a → 0 ≤ b →
  (run_iterations g a verbose out
     ≫= λ st, run_iterations st.1 b verbose st.2)
  = run_iterations g (a + b) verbose out.
Proof.
  intros Ha Hb. unfold run_iterations.
  rewrite Z2Nat.inj_add by done. rewrite for_range_add.
  destruct (for_range (Z.to_nat a) (iteration verbose) (g, out))
    as [[g' out']|e]; reflexivity.
Qed.

Lemma X2_witness :
  0 ≤ 1 ∧ 0 ≤ 2 ∧
  (run_iterations blinker 1 true []
     ≫= λ st, run_iterations st.1 2 true st.2)
  = run_iterations blinker (1 + 2) true [].
Proof.
  split; [lia|]. split; [lia|].
  apply (X2_run_iterations_add blinker 1 2 true []); lia.
Defined.

Lemma length_printed (k : nat) (g : ConwayGameOfLife) :
  length (printed k g) = k.
Proof.
  revert g. induction k as [|k IH]; intros g; [done|].
  cbn [printed length]. by rewrite IH.
Qed.

Lemma printed_shape (k : nat) (g : ConwayGameOfLife) :
  Forall (λ a, shape a = [(board_shape g).1; (board_shape g).2])
         (printed k g).
Proof.
  revert g. induction k as [|k IH]; intros g; [constructor|].
  cbn [printed]. constructor.
  - unfold snapshot. cbn [shape]. by rewrite step_shape.
  - specialize (IH (step g)). by rewrite step_shape in IH.
Qed.

Lemma printed_last (k : nat) (g : ConwayGameOfLife) :
  last (printed (S k) g) = Some (snapshot (steps (S k) g)).
Proof.
  revert g. induction k as [|k IH]; intros g; [done|].
  change (printed (S (S k)) g)
    with (snapshot (step g) :: printed (S k) (step g)).
  rewrite last_cons, IH. done.
Qed.

(** X3. In every game a program can hold, the verbosity flag only prints:
    a verbose run ends in the same game as a silent one, the silent run
    prints nothing, and the verbose run prints one array per generation run
    ([n] of them, none for [n <= 0]), each of the shape of the board, the
    last one holding the final board. *)
Theorem X3_verbose_only_prints (g : ConwayGameOfLife) (n : Z)
  (out : stdout) :
  reachable g →
  ∃ g' boards,
    run_iterations g n false out = Ok (g', out) ∧
    run_iterations g n true out = Ok (g', out ++ boards) ∧
    length boards = Z.to_nat n ∧
    board_shape g' = board_shape g ∧
    Forall (λ a, shape a = [(board_shape g).1; (board_shape g).2]) boards ∧
    (∀ a, last boards = Some a → board_values g' = Ok (data a)).
Proof.
  intros Hg%reachable_valid.
  exists (steps (Z.to_nat n) g), (printed (Z.to_nat n) g).
  split_and!.
  - by rewrite run_iterations_valid.
  - by rewrite run_iterations_valid.
  - apply length_printed.
  - apply steps_shape.
  - apply printed_shape.
  - intros a Hlast. destruct (Z.to_nat n) as [|k]; [done|].
    rewrite printed_last in Hlast. injection Hlast as <-.
    apply (board_values_snapshot (steps (S k) g)). by apply steps_valid.
Qed.

Lemma X3_witness :
  reachable blinker ∧
  ∃ g' boards,
    run_iterations blinker 2 false [] = Ok (g', []) ∧
    run_iterations blinker 2 true [] = Ok (g', [] ++ boards) ∧
    length boards = Z.to_nat 2.
Proof.
  split; [exact blinker_reachable|].
  destruct (X3_verbose_only_prints blinker 2 [] blinker_reachable)
    as (g' & boards & Hsilent & Hverbose & Hlen & _).
  exists g', boards. split_and!; assumption.
Defined.

(** ** From the array given to the array read back *)

Lemma init_accepts (m n : nat) (d : list Z) :
  (2 ≤ m)%nat → (2 ≤ n)%nat → Forall (λ v, v = 0 ∨ v = 1) d →
  __init__ (np_array2 m n d)
  = Ok (setitem_board
          (Game LOOKUP
             (Uint8_2d (m + 2) (n + 2) (replicate ((m + 2) * (n + 2)) 0))) d).
Proof.
  intros Hm Hn Hd. unfold __init__, np_array2. cbn [shape data].
  assert (existsb (λ x, x <? 2)%nat [m; n] = false) as ->.
  { apply Nat.ltb_ge in Hm, Hn. cbn [existsb]. by rewrite Hm, Hn. }
  apply values_check_true in Hd. rewrite Hd. reflexivity.
Qed.

Lemma init_board_at (m n : nat) (d : list Z) (r c : nat) :
  length d = (m * n)%nat → Forall (λ v, v = 0 ∨ v = 1) d →
  (r < m)%nat → (c < n)%nat →
  board_at (setitem_board
              (Game LOOKUP
                 (Uint8_2d (m + 2) (n + 2) (replicate ((m + 2) * (n + 2)) 0)))
              d) r c
  = d !! (r * n + c)%nat.
Proof.
  intros Hlen Hd Hr Hc.
  rewrite setitem_board_interior; cbn [expanded_board rows cols buf];
    rewrite ?length_replicate, ?Nat.add_sub; try done; try lia.
  destruct (lookup_lt_is_Some_2 d (r * n + c)%nat) as [v Hv].
  { rewrite Hlen. assert ((r + 1) * n ≤ m * n)%nat
      by (apply Nat.mul_le_mono_r; lia). lia. }
  rewrite Hv. cbn. f_equal. apply to_uint8_small.
  rewrite Forall_lookup in Hd. destruct (Hd _ _ Hv); lia.
Qed.

Lemma logical_init (m n : nat) (d : list Z) (r c : Z) :
  length d = (m * n)%nat → Forall (λ v, v = 0 ∨ v = 1) d →
  logical (setitem_board
             (Game LOOKUP
                (Uint8_2d (m + 2) (n + 2) (replicate ((m + 2) * (n + 2)) 0)))
             d) r c
  = grid_of m n d r c.
Proof.
  intros Hlen Hd. unfold logical, grid_of.
  rewrite setitem_board_shape. unfold board_shape.
  cbn [expanded_board rows cols]. rewrite !Nat.add_sub.
  destruct (in_board m n r c) eqn:Hin; [|done].
  apply in_board_true in Hin. rewrite !andb_true_l.
  rewrite init_board_at by (done || lia). done.
Qed.

Lemma successor_ext (m n : nat) (w1 w2 : grid) :
  (∀ r c, w1 r c = w2 r c) → ∀ r c, successor m n w1 r c = successor m n w2 r c.
Proof.
  intros Hw r c. unfold successor, live_neighbours, neighbours.
  cbn [List.filter fst snd]. by rewrite !Hw.
Qed.

Lemma generations_ext (m n k : nat) (w1 w2 : grid) :
  (∀ r c, w1 r c = w2 r c) →
  ∀ r c, generations m n k w1 r c = generations m n k w2 r c.
Proof.
  intros Hw. induction k as [|k IH]; [done|].
  unfold generations in *. cbn [Nat.iter]. by apply successor_ext.
Qed.

Lemma logical_steps (k : nat) (g : ConwayGameOfLife) (r c : Z) :
  valid g →
  logical (steps k g) r c
  = generations (board_shape g).1 (board_shape g).2 k (logical g) r c.
Proof.
  revert g r c. induction k as [|k IH]; intros g r c Hg; [done|].
  cbn [steps]. rewrite IH by (by apply step_valid). rewrite step_shape.
  unfold generations. rewrite Nat.iter_succ_r.
  apply (generations_ext _ _ k). intros r' c'. by apply logical_step.
Qed.

Lemma cellv_logical (g : ConwayGameOfLife) (r c : nat) :
  valid g →
  (r < (board_shape g).1)%nat → (c < (board_shape g).2)%nat →
  cellv g r c = Z.b2z (logical g (Z.of_nat r) (Z.of_nat c)).
Proof.
  intros Hg Hr Hc. cbn [board_shape fst snd] in *. rewrite cellv_padv.
  apply padv_logical; first [done|lia].
Qed.

Lemma board_values_logical (g : ConwayGameOfLife) :
  valid g →
  board_values g
  = Ok (array_of (board_shape g).1 (board_shape g).2 (logical g)).
Proof.
  intros Hg. rewrite board_values_snapshot by done.
  unfold snapshot, array_of. cbn [data]. f_equal.
  apply list_fmap_ext. intros i [r c] Hrc. cbn [fst snd].
  apply list_elem_of_lookup_2, elem_of_cells in Hrc as [Hr Hc].
  by apply cellv_logical.
Qed.

Lemma array_of_ext (m n : nat) (w1 w2 : grid) :
  (∀ r c, w1 r c = w2 r c) → array_of m n w1 = array_of m n w2.
Proof.
  intros Hw. unfold array_of. apply list_fmap_ext. intros i rc _.
  by rewrite Hw.
Qed.

(** X4. Building a game from an [m] x [n] array of 0s and 1s
    ([m, n >= 2]), running [k] generations and reading [game.board] gives
    the array of the grid reached from the grid of the input by
    [max(k, 0)] applications of Conway's rule. *)
Theorem X4_whole_run (m n : nat) (d : list Z) (k : Z) :
  length d = (m * n)%nat → (2 ≤ m)%nat → (2 ≤ n)%nat →
  Forall (λ v, v = 0 ∨ v = 1) d →
  board_after (np_array2 m n d) k
  = Ok (array_of m n (generations m n (Z.to_nat k) (grid_of m n d))).
Proof.
  intros Hlen Hm Hn Hd. unfold board_after.
  rewrite init_accepts by done. unfold mbind at 1, result_bind at 1.
  pose proof (zeros_valid_shape m n d Hm Hn Hd) as Hg.
  rewrite run_iterations_valid by done.
  unfold mbind, result_bind. cbn [fst].
  rewrite board_values_logical by (by apply steps_valid).
  rewrite steps_shape, setitem_board_shape. unfold board_shape.
  cbn [expanded_board rows cols fst snd]. rewrite !Nat.add_sub. f_equal.
  apply array_of_ext. intros r c. rewrite logical_steps by done.
  rewrite setitem_board_shape. unfold board_shape.
  cbn [expanded_board rows cols fst snd]. rewrite !Nat.add_sub.
  apply generations_ext. intros r' c'. by apply logical_init.
Qed.

Lemma X4_witness :
  length [0;1;0; 0;1;0; 0;1;0] = (3 * 3)%nat ∧
  board_after (np_array2 3 3 [0;1;0; 0;1;0; 0;1;0]) 2
  = Ok (array_of 3 3
          (generations 3 3 (Z.to_nat 2) (grid_of 3 3 [0;1;0; 0;1;0; 0;1;0]))).
Proof.
  split; [reflexivity|].
  apply (X4_whole_run 3 3 [0;1;0; 0;1;0; 0;1;0] 2); [reflexivity|lia|lia|].
  repeat (apply Forall_cons_2; [first [left; reflexivity|right; reflexivity]|]).
  apply Forall_nil_2.
Defined.

(** Two games are the same when their tables, their shapes and the cells of
    their padded buffers are. *)
Lemma game_eq (g1 g2 : ConwayGameOfLife) :
  lookup g1 = lookup g2 →
  rows (expanded_board g1) = rows (expanded_board g2) →
  cols (expanded_board g1) = cols (expanded_board g2) →
  length (buf (expanded_board g1))
  = (rows (expanded_board g1) * cols (expanded_board g1))%nat →
  length (buf (expanded_board g2))
  = (rows (expanded_board g2) * cols (expanded_board g2))%nat →
  (∀ i j, (i < rows (expanded_board g1))%nat →
          (j < cols (expanded_board g1))%nat →
          expanded_at g1 i j = expanded_at g2 i j) →
  g1 = g2.
Proof.
  destruct g1 as [l1 [r1 c1 b1]], g2 as [l2 [r2 c2 b2]].
  unfold expanded_at. cbn. intros -> -> -> Hlen1 Hlen2 Hcells.
  do 2 f_equal. apply list_eq. intros p.
  destruct (decide (p < r2 * c2)%nat) as [Hp|Hp].
  - assert (c2 ≠ 0)%nat as Hc by lia.
    pose proof (Nat.div_mod p c2 Hc) as Hdiv.
    pose proof (Nat.mod_upper_bound p c2 Hc) as Hmod.
    assert (p `div` c2 < r2)%nat as Hrow
      by (apply Nat.Div0.div_lt_upper_bound; lia).
    specialize (Hcells (p `div` c2)%nat (p `mod` c2)%nat Hrow Hmod).
    replace (p `div` c2 * c2 + p `mod` c2)%nat with p in Hcells by lia.
    exact Hcells.
  - rewrite !lookup_ge_None_2 by lia. done.
Qed.

(** X5. The board of a game a program can hold, handed to the constructor
    again, is accepted and builds that very game: same table, same padded
    buffer. *)
Theorem X5_board_rebuilds_game (g : ConwayGameOfLife) :
  reachable g →
  ∃ a,
    board g = Ok (PyObj (PyNdarray a)) ∧
    shape a = [(board_shape g).1; (board_shape g).2] ∧
    new_game (PyObj (PyNdarray a)) = Ok g.
Proof.
  intros Hg%reachable_valid. exists (snapshot g).
  pose proof Hg as [Hl Hrows Hcols Hlen Hbin Hborder].
  set (m := (rows (expanded_board g) - 2)%nat).
  set (n := (cols (expanded_board g) - 2)%nat).
  set (d := (λ rc, cellv g rc.1 rc.2) <$> cells m n).
  assert (Forall (λ v, v = 0 ∨ v = 1) d) as Hd.
  { apply Forall_fmap, Forall_forall.
    intros [r c] [Hr Hc]%elem_of_cells. cbn.
    apply cellv_binary; first [done|lia]. }
  assert (length d = (m * n)%nat) as Hdlen
    by (unfold d; by rewrite length_fmap, length_cells).
  split_and!.
  - unfold board. by rewrite board_values_snapshot.
  - done.
  - unfold new_game.
    change (PyNdarray (snapshot g)) with (np_array2 m n d).
    rewrite init_accepts by (done || lia). f_equal.
    apply game_eq.
    + by rewrite setitem_board_lookup.
    + rewrite setitem_board_rows. cbn. lia.
    + rewrite setitem_board_cols. cbn. lia.
    + rewrite setitem_board_length, setitem_board_rows, setitem_board_cols.
      cbn. by rewrite length_replicate.
    + done.
    + rewrite setitem_board_rows, setitem_board_cols.
      cbn [expanded_board rows cols]. intros i j Hi Hj.
      destruct (decide ((1 ≤ i ≤ m)%nat ∧ (1 ≤ j ≤ n)%nat)) as [Hin|Hout].
      * replace i with ((i - 1) + 1)%nat at 1 by lia.
        replace j with ((j - 1) + 1)%nat at 1 by lia.
        rewrite <- board_at_expanded.
        rewrite init_board_at by (done || lia).
        unfold d. rewrite list_lookup_fmap, cells_lookup by lia.
        cbn [fmap option_fmap option_map fst snd].
        rewrite cellv_padv.
        replace (i - 1 + 1)%nat with i by lia.
        replace (j - 1 + 1)%nat with j by lia.
        symmetry. apply expanded_at_padv; first [done|lia].
      * rewrite setitem_board_ring;
          cbn [expanded_board rows cols buf]; rewrite ?Nat.add_sub;
          [|lia|done].
        rewrite Hborder by (split_and!; lia).
        unfold expanded_at. cbn [expanded_board rows cols buf].
        apply lookup_replicate_2.
        assert ((i + 1) * (n + 2) ≤ (m + 2) * (n + 2))%nat
          by (apply Nat.mul_le_mono_r; lia).
        lia.
Qed.

Lemma X5_witness :
  reachable blinker ∧
  ∃ a, board blinker = Ok (PyObj (PyNdarray a)) ∧
       new_game (PyObj (PyNdarray a)) = Ok blinker.
Proof.
  split; [exact blinker_reachable|].
  destruct (X5_board_rebuilds_game blinker blinker_reachable)
    as (a & Hboard & _ & Hnew).
  exists a. split; assumption.
Defined.

(** * Saving and loading boards (pickle_conway.py) *)

(** X6. An array saved under a name that is not empty and that [open]
    accepts is saved with success, and loading that name from the world left
    behind returns the same array; no other file changes, and with a name
    given nothing is printed. *)
Theorem X6_pickle_unpickle (a : ndarray) (name : string)
  (verbose verbose' : bool) (w : world) :
  name ≠ "" → name ∉ locked w →
  ∃ w',
    pickle_conway_board (PyObj (PyNdarray a)) (Some name) verbose w
    = Return true w' ∧
    unpickle_conway_board name verbose' w' = Return (PyObj (PyNdarray a)) w' ∧
    (∀ other, other ≠ name → files w' !! other = files w !! other) ∧
    locked w' = locked w ∧ console w' = console w.
Proof.
  intros Hname Hfree.
  exists (dump name (PyObj (PyNdarray a)) w). split_and!.
  - unfold pickle_conway_board, falsy. cbn [str_filename].
    rewrite (bool_decide_eq_false_2 (name = "")) by done. cbn [andb].
    by rewrite (bool_decide_eq_false_2 (name ∈ locked w)).
  - unfold unpickle_conway_board, dump. cbn [locked files].
    rewrite bool_decide_eq_false_2 by done.
    by rewrite lookup_insert_eq.
  - intros other Hother. unfold dump. cbn [files].
    by rewrite lookup_insert_ne.
  - done.
  - done.
Qed.

Lemma X6_witness :
  "out.pkl" ≠ "" ∧ ("out.pkl" ∉ locked (World ∅ ∅ "01012020.00-00-00" [])) ∧
  ∃ w',
    pickle_conway_board (PyObj blinker_board) (Some "out.pkl") false
      (World ∅ ∅ "01012020.00-00-00" [])
    = Return true w' ∧
    unpickle_conway_board "out.pkl" false w' = Return (PyObj blinker_board) w'.
Proof.
  assert ("out.pkl" ≠ "") as Hname by discriminate.
  assert ("out.pkl" ∉ locked (World ∅ ∅ "01012020.00-00-00" [])) as Hfree
    by (cbn; apply not_elem_of_empty).
  split; [exact Hname|]. split; [exact Hfree|].
  destruct (X6_pickle_unpickle (NdArray [3; 3]%nat [0;1;0; 0;1;0; 0;1;0])
              "out.pkl" false false (World ∅ ∅ "01012020.00-00-00" [])
              Hname Hfree) as (w' & Hsave & Hload & _).
  exists w'. split; assumption.
Defined.

(** X7. A value that is not an array is never saved: the call returns
    [False], leaves every file as it was, and prints its message only when
    verbose. *)
Theorem X7_pickle_rejects_non_array (v : pyvalue) (filename : option string)
  (verbose : bool) (w : world) :
  (∀ a, v ≠ PyObj (PyNdarray a)) →
  ∃ w',
    pickle_conway_board v filename verbose w = Return false w' ∧
    files w' = files w ∧ locked w' = locked w ∧
    console w'
    = console w
      ++ (if verbose
          then [Text ("Invalid type. Could not save board-state to file: "
                      ++ str_filename filename)]
          else []).
Proof.
  intros Hv. unfold pickle_conway_board.
  destruct v as [|[z|l|a]]; [| | |by destruct (Hv a)];
    (eexists; split; [reflexivity|]);
    destruct verbose; cbn; by rewrite ?app_nil_r.
Qed.

Lemma X7_witness :
  (∀ a, PyObj (PyInt 3) ≠ PyObj (PyNdarray a)) ∧
  ∃ w',
    pickle_conway_board (PyObj (PyInt 3)) (Some "conway_pickle_test2.pkl")
      false (World ∅ ∅ "01012020.00-00-00" [])
    = Return false w' ∧
    files w' = ∅.
Proof.
  assert (∀ a, PyObj (PyInt 3) ≠ PyObj (PyNdarray a)) as Hv by discriminate.
  split; [exact Hv|].
  destruct (X7_pickle_rejects_non_array (PyObj (PyInt 3))
              (Some "conway_pickle_test2.pkl") false
              (World ∅ ∅ "01012020.00-00-00" []) Hv)
    as (w' & Hsave & Hfiles & _).
  exists w'. split; assumption.
Defined.

(** X8. Loading never writes and never lets an [OSError] out: a name that
    [open] refuses or that names no file gives [None]; a value returned is
    [None] or the array pickled in the file; and the only exception is the
    one of [pickle.load] on a file that holds no pickle, the world
    untouched. *)
Theorem X8_unpickle_outcomes (filename : string) (verbose : bool)
  (w : world) :
  (filename ∈ locked w ∨ files w !! filename = None →
   ∃ w', unpickle_conway_board filename verbose w = Return PyNone w') ∧
  (∀ v w', unpickle_conway_board filename verbose w = Return v w' →
     files w' = files w ∧ locked w' = locked w ∧
     (v = PyNone ∨
      ∃ a, v = PyObj (PyNdarray a) ∧ (filename ∉ locked w) ∧
           files w !! filename = Some (Pickled v) ∧ w' = w)) ∧
  (∀ e w', unpickle_conway_board filename verbose w = Throw e w' →
     e = UnpicklingError ∧ w' = w ∧ (filename ∉ locked w) ∧
     files w !! filename = Some Corrupt).
Proof.
  unfold unpickle_conway_board.
  destruct (decide (filename ∈ locked w)) as [Hl|Hl].
  { rewrite bool_decide_eq_true_2 by done. split_and!.
    - intros _. eauto.
    - intros v w' [= <- <-]. destruct verbose; auto.
    - discriminate. }
  rewrite bool_decide_eq_false_2 by done.
  destruct (files w !! filename) as [[[|[z|l|a]]|]|] eqn:Hfile; split_and!;
    try (intros [?|?]; [done|discriminate]);
    try (intros _; by eauto);
    try discriminate;
    try (intros v w' [= <- <-]; destruct verbose; by auto);
    try (intros v w' [= <- <-]; split_and!; [done..|]; right; by eauto).
Qed.

(** X9. With no file name, or an empty one, an array is saved under
    ["conway" + time + ".pkl"], the time being the formatted current time;
    the name is printed when verbose, and no other file changes. *)
Theorem X9_pickle_default_name (a : ndarray) (filename : option string)
  (verbose : bool) (w : world) :
  filename = None ∨ filename = Some "" →
  ("conway" ++ now w ++ ".pkl")%string ∉ locked w →
  ∃ w',
    pickle_conway_board (PyObj (PyNdarray a)) filename verbose w
    = Return true w' ∧
    files w' !! ("conway" ++ now w ++ ".pkl")%string
    = Some (Pickled (PyObj (PyNdarray a))) ∧
    (∀ other, other ≠ ("conway" ++ now w ++ ".pkl")%string →
       files w' !! other = files w !! other) ∧
    console w'
    = console w
      ++ (if verbose then [Text ("conway" ++ now w ++ ".pkl")] else []).
Proof.
  intros Hnone Hfree.
  assert (falsy filename = true) as Hfalsy by (by destruct Hnone as [-> | ->]).
  unfold pickle_conway_board. rewrite Hfalsy. cbn [andb].
  destruct verbose.
  - unfold print at 1. cbn [locked].
    rewrite bool_decide_eq_false_2 by done.
    eexists. split; [reflexivity|]. unfold dump, print. cbn [files console].
    split_and!; [by rewrite lookup_insert_eq| |done].
    intros other Hother. by rewrite lookup_insert_ne.
  - rewrite bool_decide_eq_false_2 by done.
    eexists. split; [reflexivity|]. unfold dump. cbn [files console].
    split_and!; [by rewrite lookup_insert_eq| |by rewrite app_nil_r].
    intros other Hother. by rewrite lookup_insert_ne.
Qed.

Lemma X9_witness :
  ((None : option string) = None ∨ None = Some "") ∧
  ∃ w',
    pickle_conway_board (PyObj blinker_board) None true
      (World ∅ ∅ "01012020.00-00-00" [])
    = Return true w' ∧
    files w' !! "conway01012020.00-00-00.pkl"
    = Some (Pickled (PyObj blinker_board)).
Proof.
  split; [by left|].
  destruct (X9_pickle_default_name (NdArray [3; 3]%nat [0;1;0; 0;1;0; 0;1;0])
              None true (World ∅ ∅ "01012020.00-00-00" []))
    as (w' & Hsave & Hfile & _).
  - by left.
  - cbn. apply not_elem_of_empty.
  - exists w'. split; assumption.
Defined.

(** X10. Saving does not catch the [OSError] of [open]: an array saved under
    a name that [open] refuses raises it, and no file is written; loading
    from such a name returns [None] instead. *)
Theorem X10_pickle_locked (a : ndarray) (name : string) (verbose : bool)
  (w : world) :
  name ≠ "" → name ∈ locked w →
  pickle_conway_board (PyObj (PyNdarray a)) (Some name) verbose w
  = Throw OSError w ∧
  ∃ w', unpickle_conway_board name verbose w = Return PyNone w' ∧
        files w' = files w.
Proof.
  intros Hname Hlocked. split.
  - unfold pickle_conway_board, falsy. cbn [str_filename].
    rewrite (bool_decide_eq_false_2 (name = "")) by done. cbn [andb].
    by rewrite (bool_decide_eq_true_2 (name ∈ locked w)).
  - unfold unpickle_conway_board. rewrite bool_decide_eq_true_2 by done.
    eexists. split; [reflexivity|]. by destruct verbose.
Qed.

Lemma X10_witness :
  "ro.pkl" ≠ "" ∧
  "ro.pkl" ∈ locked (World ∅ {["ro.pkl"]} "01012020.00-00-00" []) ∧
  pickle_conway_board (PyObj blinker_board) (Some "ro.pkl") false
    (World ∅ {["ro.pkl"]} "01012020.00-00-00" [])
  = Throw OSError (World ∅ {["ro.pkl"]} "01012020.00-00-00" []).
Proof.
  assert ("ro.pkl" ≠ "") as Hname by discriminate.
  assert ("ro.pkl" ∈ locked (World ∅ {["ro.pkl"]} "01012020.00-00-00" []))
    as Hlocked by (cbn; by apply elem_of_singleton).
  split; [exact Hname|]. split; [exact Hlocked|].
  apply (X10_pickle_locked (NdArray [3; 3]%nat [0;1;0; 0;1;0; 0;1;0])
           "ro.pkl" false _ Hname Hlocked).
Defined.

(** * The command line (conway.py) *)

Lemma result_bind_Ok {A B} (x : A) (f : A → result B) : (Ok x ≫= f) = f x.
Proof. done. Qed.

Lemma mapM_app_Ok {A B} (f : A → result B) (l1 l2 : list A) (r1 : list B) :
  mapM f l1 = Ok r1 →
  mapM f (l1 ++ l2) = (r2 ← mapM f l2; Ok (r1 ++ r2)).
Proof.
  revert r1. induction l1 as [|x l1 IH]; intros r1.
  - intros [= <-]. cbn. by destruct (mapM f l2).
  - cbn. destruct (f x) as [y|e]; [|done]. cbn.
    destruct (mapM f l1) as [r|e] eqn:Hl1; [|done]. cbn.
    intros [= <-]. rewrite (IH r) by done. cbn.
    by destruct (mapM f l2).
Qed.

(** Reading the pairs of a command line back by index. *)
Lemma read_pairs (prefix rest : list string) (pairs : list (string * string))
  (s : nat) :
  length prefix = (1 + 2 * s)%nat →
  mapM (λ i, k ← argv_at (prefix ++ (pairs ≫= λ kv, [kv.1; kv.2]) ++ rest)
                         (1 + i);
             v ← argv_at (prefix ++ (pairs ≫= λ kv, [kv.1; kv.2]) ++ rest)
                         (2 + i);
             Ok (k, v))
       ((λ j, 2 * j)%nat <$> seq s (length pairs))
  = Ok pairs.
Proof.
  revert prefix s. induction pairs as [|[k v] pairs IH]; intros prefix s Hlen;
    [done|].
  cbn [length seq fmap list_fmap mapM]. rewrite bind_cons. cbn [fst snd].
  set (argv := prefix ++ ([k; v] ++ pairs ≫= λ kv, [kv.1; kv.2]) ++ rest).
  assert (argv_at argv (1 + 2 * s) = Ok k) as ->.
  { unfold argv_at, argv. rewrite lookup_app_r by lia.
    by replace (1 + 2 * s - length prefix)%nat with 0%nat by lia. }
  assert (argv_at argv (2 + 2 * s) = Ok v) as ->.
  { unfold argv_at, argv. rewrite lookup_app_r by lia.
    by replace (2 + 2 * s - length prefix)%nat with 1%nat by lia. }
  rewrite !result_bind_Ok.
  assert (argv = (prefix ++ [k; v]) ++ (pairs ≫= λ kv, [kv.1; kv.2]) ++ rest)
    as -> by (unfold argv; by rewrite <- !app_assoc).
  rewrite (IH (prefix ++ [k; v]) (S s)); [done|].
  rewrite length_app. cbn. lia.
Qed.

Lemma length_flat_pairs (pairs : list (string * string)) :
  length (pairs ≫= λ kv, [kv.1; kv.2]) = (2 * length pairs)%nat.
Proof.
  induction pairs as [|kv pairs IH]; [done|].
  rewrite bind_cons, length_app, IH. cbn. lia.
Qed.

Lemma parse_args_pairs (prog : string) (pairs : list (string * string)) :
  parse_args (command_line prog pairs) = Ok (cli_dict pairs).
Proof.
  unfold parse_args, arg_indices, command_line.
  cbn [length]. rewrite length_flat_pairs.
  replace ((S (2 * length pairs) - 1 + 1) / 2)%nat with (length pairs).
  2:{ replace (S (2 * length pairs) - 1 + 1)%nat
        with (length pairs * 2 + 1)%nat by lia.
      rewrite Nat.div_add_l by lia. cbn. lia. }
  pose proof (read_pairs [prog] [] pairs 0 eq_refl) as Hread.
  rewrite app_nil_r in Hread. cbn [app] in Hread.
  rewrite Hread. reflexivity.
Qed.

Lemma cli_dict_snoc (pairs : list (string * string)) (kv : string * string) :
  cli_dict (pairs ++ [kv]) = <[kv.1 := kv.2]> (cli_dict pairs).
Proof. unfold cli_dict. by rewrite foldl_app. Qed.

(** X11. The flags of the command line may come in any order, and the value
    kept for a flag is the one of its last occurrence: the dictionary read
    from a command line of flag and value pairs maps each flag to the value
    of the last pair that carries it, and to nothing when no pair does. *)
Theorem X11_parse_args_last_wins (prog : string)
  (pairs : list (string * string)) :
  ∃ cli_args,
    parse_args (command_line prog pairs) = Ok cli_args ∧
    ∀ flag,
      cli_args !! flag = snd <$> last (filter (λ kv, kv.1 = flag) pairs).
Proof.
  exists (cli_dict pairs). split; [apply parse_args_pairs|].
  intros flag. induction pairs as [|[k v] pairs IH] using rev_ind; [done|].
  rewrite cli_dict_snoc, filter_app. cbn [fst snd].
  destruct (decide (k = flag)) as [->|Hne].
  - rewrite lookup_insert_eq.
    rewrite (filter_cons_True _ (flag, v)) by done.
    rewrite filter_nil. by rewrite last_snoc.
  - rewrite lookup_insert_ne by done.
    rewrite (filter_cons_False _ (k, v)) by done.
    rewrite filter_nil, app_nil_r. exact IH.
Qed.

Lemma parse_args_odd (prog extra : string) (pairs : list (string * string)) :
  parse_args (command_line prog pairs ++ [extra]) = Raise IndexError.
Proof.
  unfold parse_args, arg_indices, command_line.
  rewrite length_app. cbn [length]. rewrite length_flat_pairs.
  replace ((S (2 * length pairs) + 1 - 1 + 1) / 2)%nat
    with (S (length pairs)).
  2:{ replace (S (2 * length pairs) + 1 - 1 + 1)%nat
        with (S (length pairs) * 2)%nat by lia.
      by rewrite Nat.div_mul. }
  rewrite seq_S, fmap_app. cbn [Nat.add fmap list_fmap].
  pose proof (read_pairs [prog] [extra] pairs 0 eq_refl) as Hread.
  cbn [app] in Hread.
  change ((prog :: pairs ≫= λ kv, [kv.1; kv.2]) ++ [extra])
    with (prog :: (pairs ≫= λ kv, [kv.1; kv.2]) ++ [extra]).
  rewrite (mapM_app_Ok _ _ _ pairs) by exact Hread.
  cbn [mapM]. unfold argv_at.
  change (prog :: (pairs ≫= λ kv, [kv.1; kv.2]) ++ [extra])
    with ((prog :: pairs ≫= λ kv, [kv.1; kv.2]) ++ [extra]).
  rewrite (list_lookup_middle _ [] extra (S (2 * length pairs)))
    by (cbn [length]; rewrite length_flat_pairs; lia).
  rewrite result_bind_Ok.
  rewrite lookup_ge_None_2; [done|].
  rewrite length_app. cbn [length]. rewrite length_flat_pairs. lia.
Qed.

(** X12. A command line with an odd number of arguments (a flag at the end
    without its value) raises [IndexError] while the dictionary is built:
    nothing is printed, no file is read or written. *)
Theorem X12_main_odd_arguments (int : string → result Z) (prog extra : string)
  (pairs : list (string * string)) (w : world) :
  main int (command_line prog pairs ++ [extra]) w = Throw (Core IndexError) w.
Proof. unfold main. by rewrite parse_args_odd. Qed.

(** ** What a run of the script does to the world *)

Lemma print_boards (w : world) (out : list ndarray) :
  files (foldl (λ w a, print (Board a) w) w out) = files w ∧
  locked (foldl (λ w a, print (Board a) w) w out) = locked w ∧
  now (foldl (λ w a, print (Board a) w) w out) = now w ∧
  console (foldl (λ w a, print (Board a) w) w out)
  = console w ++ (Board <$> out).
Proof.
  revert w. induction out as [|a out IH]; intros w.
  - cbn. by rewrite app_nil_r.
  - cbn [foldl fmap list_fmap]. destruct (IH (print (Board a) w))
      as (-> & -> & -> & ->).
    unfold print. cbn. by rewrite <- app_assoc.
Qed.

Lemma pickle_throws_OSError (v : pyvalue) (filename : option string)
  (verbose : bool) (w w' : world) (e : exc) :
  pickle_conway_board v filename verbose w = Throw e w' → e = OSError.
Proof.
  unfold pickle_conway_board. destruct v as [|[z|l|a]]; try discriminate.
  destruct (bool_decide _); [|discriminate]. by intros [= <- _].
Qed.

Lemma unpickle_throws_UnpicklingError (filename : string) (verbose : bool)
  (w w' : world) (e : exc) :
  unpickle_conway_board filename verbose w = Throw e w' →
  e = UnpicklingError.
Proof.
  unfold unpickle_conway_board.
  destruct (bool_decide _); [discriminate|].
  destruct (files w !! filename) as [[[|[z|l|a]]|]|]; try discriminate.
  by intros [= <- _].
Qed.

Lemma given_Some (arg : option string) :
  given arg = true ↔ ∃ s, arg = Some s ∧ s ≠ "".
Proof.
  unfold given, falsy. destruct arg as [s|]; cbn.
  - rewrite negb_true_iff, bool_decide_eq_false. split.
    + intros Hs. by exists s.
    + by intros (s' & [= <-] & Hs).
  - split; [done|]. by intros (s & Hs & _).
Qed.

(** The board a run leaves, for an accepted input. *)
Lemma run_board (m n : nat) (d : list Z) (k : nat) :
  length d = (m * n)%nat → (2 ≤ m)%nat → (2 ≤ n)%nat →
  Forall (λ v, v = 0 ∨ v = 1) d →
  board (steps k
           (setitem_board
              (Game LOOKUP
                 (Uint8_2d (m + 2) (n + 2) (replicate ((m + 2) * (n + 2)) 0)))
              d))
  = Ok (PyObj (np_array2 m n
                 (array_of m n (generations m n k (grid_of m n d))))).
Proof.
  intros Hlen Hm Hn Hd.
  pose proof (zeros_valid_shape m n d Hm Hn Hd) as Hg.
  unfold board. rewrite board_values_logical by (by apply steps_valid).
  rewrite steps_shape, setitem_board_shape. unfold board_shape.
  cbn [expanded_board rows cols fst snd]. rewrite !Nat.add_sub.
  rewrite result_bind_Ok. unfold np_array2. do 4 f_equal.
  apply array_of_ext. intros r c. rewrite logical_steps by done.
  rewrite setitem_board_shape. unfold board_shape.
  cbn [expanded_board rows cols fst snd]. rewrite !Nat.add_sub.
  apply generations_ext. intros r' c'. by apply logical_init.
Qed.

(** X13. The script ends with [sys.exit(1)] exactly when, the dictionary
    read, one of [-f], [-o], [-n] is missing or has the empty value; it then
    has printed ["Invalid arguments."] and nothing else, and has read and
    written no file. *)
Theorem X13_main_invalid_arguments (int : string → result Z) (prog : string)
  (pairs : list (string * string)) (w : world) :
  (given (cli_dict pairs !! "-f") && given (cli_dict pairs !! "-o")
   && given (cli_dict pairs !! "-n") = false →
   main int (command_line prog pairs) w
   = Throw (SystemExit 1) (print (Text "Invalid arguments.") w)) ∧
  (∀ code w',
     main int (command_line prog pairs) w = Throw (SystemExit code) w' →
     given (cli_dict pairs !! "-f") && given (cli_dict pairs !! "-o")
     && given (cli_dict pairs !! "-n") = false).
Proof.
  unfold main. rewrite parse_args_pairs.
  destruct (given (cli_dict pairs !! "-f")),
    (given (cli_dict pairs !! "-o")), (given (cli_dict pairs !! "-n"));
    cbn [negb orb andb]; (split; [done|]); try done.
  intros code w'.
  destruct (int _) as [n|e]; [|discriminate].
  destruct (unpickle_conway_board _ _ w) as [v w1|e w1] eqn:Hload.
  2:{ apply unpickle_throws_UnpicklingError in Hload as ->. discriminate. }
  destruct (new_game v) as [game|e]; [|discriminate].
  destruct (run_iterations game n _ []) as [[game' out]|e]; [|discriminate].
  destruct (board game') as [b|e]; [|discriminate].
  destruct (pickle_conway_board b _ _ _) as [r w3|e w3] eqn:Hsave;
    [discriminate|].
  apply pickle_throws_OSError in Hsave as ->. discriminate.
Qed.

Lemma X13_witness :
  given (cli_dict [("-f", "in.pkl"); ("-n", "2")] !! "-f")
  && given (cli_dict [("-f", "in.pkl"); ("-n", "2")] !! "-o")
  && given (cli_dict [("-f", "in.pkl"); ("-n", "2")] !! "-n") = false ∧
  main (λ _, Ok 2) (command_line "conway.py" [("-f", "in.pkl"); ("-n", "2")])
       (World ∅ ∅ "01012020.00-00-00" [])
  = Throw (SystemExit 1)
          (print (Text "Invalid arguments.")
                 (World ∅ ∅ "01012020.00-00-00" [])).
Proof.
  assert (given (cli_dict [("-f", "in.pkl"); ("-n", "2")] !! "-f")
          && given (cli_dict [("-f", "in.pkl"); ("-n", "2")] !! "-o")
          && given (cli_dict [("-f", "in.pkl"); ("-n", "2")] !! "-n") = false)
    as Hmissing by (vm_compute; reflexivity).
  split; [exact Hmissing|].
  destruct (X13_main_invalid_arguments (λ _, Ok 2) "conway.py"
              [("-f", "in.pkl"); ("-n", "2")]
              (World ∅ ∅ "01012020.00-00-00" [])) as [Hexit _].
  exact (Hexit Hmissing).
Defined.

Lemma given_value (s : string) : s ≠ "" → given (Some s) = true.
Proof. intros Hs. apply given_Some. by exists s. Qed.

(** A run of the script on a readable input file holding an accepted board. *)
Lemma main_run (int : string → result Z) (prog : string)
  (pairs : list (string * string)) (fin fout sn : string) (k : Z)
  (m n : nat) (d : list Z) (w : world) :
  cli_dict pairs !! "-f" = Some fin → cli_dict pairs !! "-o" = Some fout →
  cli_dict pairs !! "-n" = Some sn →
  fin ≠ "" → fout ≠ "" → sn ≠ "" → int sn = Ok k →
  fin ∉ locked w → fout ∉ locked w →
  files w !! fin = Some (Pickled (PyObj (np_array2 m n d))) →
  length d = (m * n)%nat → (2 ≤ m)%nat → (2 ≤ n)%nat →
  Forall (λ v, v = 0 ∨ v = 1) d →
  ∃ boards,
    main int (command_line prog pairs) w
    = Return tt
        (dump fout
           (PyObj (np_array2 m n
                     (array_of m n
                        (generations m n (Z.to_nat k) (grid_of m n d)))))
           (foldl (λ w a, print (Board a) w) w boards)) ∧
    length boards
    = (if bool_decide (cli_dict pairs !! "-v" = Some "True")
       then Z.to_nat k else 0%nat).
Proof.
  intros Hf Ho Hn Hfin Hfout Hsn Hint Hfree Hfree' Hfile Hlen Hm Hn' Hd.
  unfold main. rewrite parse_args_pairs, Hf, Ho, Hn.
  rewrite !given_value by done. cbn [negb orb str_filename]. rewrite Hint.
  set (verbose := bool_decide (cli_dict pairs !! "-v" = Some "True")).
  unfold unpickle_conway_board.
  rewrite (bool_decide_eq_false_2 (fin ∈ locked w)) by done.
  rewrite Hfile. unfold np_array2 at 1. unfold new_game.
  change (PyNdarray (NdArray [m; n] d)) with (np_array2 m n d).
  rewrite init_accepts by done.
  rewrite run_iterations_valid by (by apply zeros_valid_shape).
  rewrite run_board by done.
  set (g0 := setitem_board _ d).
  set (out := if verbose then [] ++ printed (Z.to_nat k) g0 else []).
  exists out.
  destruct (print_boards w out) as (Hfiles & Hlocked & _ & _).
  unfold pickle_conway_board, np_array2 at 1, falsy. cbn [str_filename].
  rewrite (bool_decide_eq_false_2 (fout = "")) by done. cbn [andb].
  rewrite bool_decide_eq_false_2 by (by rewrite Hlocked).
  split; [done|]. unfold out. destruct verbose; [|done].
  cbn [app]. apply length_printed.
Qed.

(** X14. Run with [-f], [-o] and [-n] given, on an input file holding an
    [m] x [n] array of 0s and 1s ([m, n >= 2]), the script returns normally
    and leaves in the output file the board after [n] generations of the Game
    of Life; no other file changes, and it prints one board per generation
    when [-v True] was given, nothing otherwise. *)
Theorem X14_main_writes_generations (int : string → result Z) (prog : string)
  (pairs : list (string * string)) (fin fout sn : string) (k : Z)
  (m n : nat) (d : list Z) (w : world) :
  cli_dict pairs !! "-f" = Some fin → cli_dict pairs !! "-o" = Some fout →
  cli_dict pairs !! "-n" = Some sn →
  fin ≠ "" → fout ≠ "" → sn ≠ "" → int sn = Ok k →
  fin ∉ locked w → fout ∉ locked w →
  files w !! fin = Some (Pickled (PyObj (np_array2 m n d))) →
  length d = (m * n)%nat → (2 ≤ m)%nat → (2 ≤ n)%nat →
  Forall (λ v, v = 0 ∨ v = 1) d →
  ∃ w' boards,
    main int (command_line prog pairs) w = Return tt w' ∧
    files w'
    = <[fout := Pickled
                  (PyObj (np_array2 m n
                            (array_of m n
                               (generations m n (Z.to_nat k)
                                  (grid_of m n d)))))]> (files w) ∧
    locked w' = locked w ∧
    console w' = console w ++ (Board <$> boards) ∧
    length boards
    = (if bool_decide (cli_dict pairs !! "-v" = Some "True")
       then Z.to_nat k else 0%nat).
Proof.
  intros Hf Ho Hn Hfin Hfout Hsn Hint Hfree Hfree' Hfile Hlen Hm Hn' Hd.
  destruct (main_run int prog pairs fin fout sn k m n d w)
    as (boards & Hrun & Hboards); try done.
  destruct (print_boards w boards) as (Hfiles & Hlocked & _ & Hconsole).
  eexists _, boards. split; [exact Hrun|].
  unfold dump. cbn [files locked console]. by rewrite Hfiles.
Qed.

Lemma X14_witness :
  ∃ w',
    main (λ _, Ok 1)
      (command_line "conway.py"
         [("-f", "in.pkl"); ("-o", "out.pkl"); ("-n", "1")])
      (World {["in.pkl" := Pickled (PyObj blinker_board)]} ∅
             "01012020.00-00-00" [])
    = Return tt w' ∧
    files w' !! "out.pkl"
    = Some (Pickled (PyObj (np_array2 3 3 [0;0;0; 1;1;1; 0;0;0]))).
Proof.
  destruct (X14_main_writes_generations (λ _, Ok 1) "conway.py"
              [("-f", "in.pkl"); ("-o", "out.pkl"); ("-n", "1")]
              "in.pkl" "out.pkl" "1" 1 3 3 [0;1;0; 0;1;0; 0;1;0]
              (World {["in.pkl" := Pickled (PyObj blinker_board)]} ∅
                     "01012020.00-00-00" []))
    as (w' & boards & Hrun & Hfiles & _).
  - vm_compute; reflexivity.
  - vm_compute; reflexivity.
  - vm_compute; reflexivity.
  - discriminate.
  - discriminate.
  - discriminate.
  - reflexivity.
  - cbn. apply not_elem_of_empty.
  - cbn. apply not_elem_of_empty.
  - cbn [files]. apply lookup_singleton_eq.
  - reflexivity.
  - lia.
  - lia.
  - repeat constructor; lia.
  - exists w'. split; [exact Hrun|].
    rewrite Hfiles, lookup_insert_eq. vm_compute. reflexivity.
Defined.



(** ** Saved boards can be run again *)

Lemma length_array_of (m n : nat) (w : grid) :
  length (array_of m n w) = (m * n)%nat.
Proof. unfold array_of. by rewrite length_fmap, length_cells. Qed.

Lemma array_of_binary (m n : nat) (w : grid) :
  Forall (λ v, v = 0 ∨ v = 1) (array_of m n w).
Proof.
  unfold array_of. apply Forall_fmap, Forall_forall. intros rc _. cbn.
  destruct (w _ _); cbn; auto.
Qed.

Lemma generations_in_board (m n k : nat) (d : list Z) (r c : Z) :
  generations m n k (grid_of m n d) r c = true → in_board m n r c = true.
Proof.
  unfold generations. destruct k as [|k]; cbn [Nat.iter].
  - unfold grid_of. by intros [? _]%andb_true_iff.
  - unfold successor at 1. by intros [? _]%andb_true_iff.
Qed.

Lemma grid_of_array_of (m n : nat) (w : grid) (r c : Z) :
  (w r c = true → in_board m n r c = true) →
  grid_of m n (array_of m n w) r c = w r c.
Proof.
  intros Hw. unfold grid_of.
  destruct (in_board m n r c) eqn:Hin; cbn [andb].
  - unfold in_board in Hin.
    apply andb_true_iff in Hin as [Hin Hc2].
    apply andb_true_iff in Hin as [Hin Hc1].
    apply andb_true_iff in Hin as [Hr1 Hr2].
    apply Z.leb_le in Hr1, Hc1. apply Z.ltb_lt in Hr2, Hc2.
    unfold array_of. rewrite list_lookup_fmap, cells_lookup by lia.
    cbn [fmap option_fmap option_map fst snd]. rewrite !Z2Nat.id by lia.
    destruct (w r c); cbn [Z.b2z].
    + by apply bool_decide_eq_true_2.
    + apply bool_decide_eq_false_2. discriminate.
  - destruct (w r c); [|done]. by specialize (Hw eq_refl).
Qed.

Lemma generations_add (m n a b : nat) (w : grid) :
  generations m n (a + b) w = generations m n b (generations m n a w).
Proof.
  unfold generations. rewrite Nat.add_comm. apply Nat.iter_add.
Qed.

Lemma array_of_resumed (m n a b : nat) (d : list Z) :
  array_of m n
    (generations m n b
       (grid_of m n (array_of m n (generations m n a (grid_of m n d)))))
  = array_of m n (generations m n (a + b) (grid_of m n d)).
Proof.
  rewrite generations_add. apply array_of_ext. intros r c.
  apply generations_ext. intros r' c'.
  apply grid_of_array_of, generations_in_board.
Qed.

(** X16. A run can be resumed from its output: running [a] generations from
    the input into an intermediate file and then [b] generations from that
    file leaves the same board in the output file as one run of [a + b]
    generations from the input. *)
Theorem X16_main_resumes (int : string → result Z) (prog : string)
  (first second whole : list (string * string))
  (fin fmid fout sa sb sc : string) (a b : Z) (m n : nat) (d : list Z)
  (w : world) :
  cli_dict first !! "-f" = Some fin → cli_dict first !! "-o" = Some fmid →
  cli_dict first !! "-n" = Some sa →
  cli_dict second !! "-f" = Some fmid → cli_dict second !! "-o" = Some fout →
  cli_dict second !! "-n" = Some sb →
  cli_dict whole !! "-f" = Some fin → cli_dict whole !! "-o" = Some fout →
  cli_dict whole !! "-n" = Some sc →
  fin ≠ "" → fmid ≠ "" → fout ≠ "" → sa ≠ "" → sb ≠ "" → sc ≠ "" →
  int sa = Ok a → int sb = Ok b → int sc = Ok (a + b) → 0 ≤ a → 0 ≤ b →
  fin ∉ locked w → fmid ∉ locked w → fout ∉ locked w →
  files w !! fin = Some (Pickled (PyObj (np_array2 m n d))) →
  length d = (m * n)%nat → (2 ≤ m)%nat → (2 ≤ n)%nat →
  Forall (λ v, v = 0 ∨ v = 1) d →
  ∃ w1 w2 w3,
    main int (command_line prog first) w = Return tt w1 ∧
    main int (command_line prog second) w1 = Return tt w2 ∧
    main int (command_line prog whole) w = Return tt w3 ∧
    files w2 !! fout = files w3 !! fout ∧
    files w3 !! fout
    = Some (Pickled
              (PyObj (np_array2 m n
                        (array_of m n
                           (generations m n (Z.to_nat (a + b))
                              (grid_of m n d)))))).
Proof.
  intros Hf1 Ho1 Hn1 Hf2 Ho2 Hn2 Hf3 Ho3 Hn3 Hfin Hfmid Hfout Hsa Hsb Hsc
    Ha Hb Hc Ha0 Hb0 Hlin Hlmid Hlout Hfile Hlen Hm Hn Hd.
  destruct (main_run int prog first fin fmid sa a m n d w)
    as (out1 & Hrun1 & _); try done.
  destruct (main_run int prog whole fin fout sc (a + b) m n d w)
    as (out3 & Hrun3 & _); try done.
  destruct (print_boards w out1) as (Hfiles1 & Hlocked1 & _ & _).
  destruct (print_boards w out3) as (Hfiles3 & _ & _ & _).
  set (w1 := dump fmid _ (foldl _ w out1)) in Hrun1.
  destruct (main_run int prog second fmid fout sb b m n
              (array_of m n (generations m n (Z.to_nat a) (grid_of m n d)))
              w1)
    as (out2 & Hrun2 & _); try done.
  { unfold w1, dump. cbn [locked]. by rewrite Hlocked1. }
  { unfold w1, dump. cbn [locked]. by rewrite Hlocked1. }
  { unfold w1, dump. cbn [files]. by rewrite lookup_insert_eq. }
  { apply length_array_of. }
  { apply array_of_binary. }
  destruct (print_boards w1 out2) as (Hfiles2 & _ & _ & _).
  eexists _, _, _. split; [exact Hrun1|]. split; [exact Hrun2|].
  split; [exact Hrun3|].
  unfold dump. cbn [files]. rewrite !lookup_insert_eq.
  rewrite array_of_resumed, <- Z2Nat.inj_add by lia. done.
Qed.

Lemma X16_witness :
  ∃ w1 w2 w3,
    main (λ s, if bool_decide (s = "2") then Ok 2 else Ok 1)
      (command_line "conway.py"
         [("-f", "in.pkl"); ("-o", "mid.pkl"); ("-n", "1")])
      (World {["in.pkl" := Pickled (PyObj blinker_board)]} ∅
             "01012020.00-00-00" [])
    = Return tt w1 ∧
    main (λ s, if bool_decide (s = "2") then Ok 2 else Ok 1)
      (command_line "conway.py"
         [("-f", "mid.pkl"); ("-o", "out.pkl"); ("-n", "1")]) w1
    = Return tt w2 ∧
    main (λ s, if bool_decide (s = "2") then Ok 2 else Ok 1)
      (command_line "conway.py"
         [("-f", "in.pkl"); ("-o", "out.pkl"); ("-n", "2")])
      (World {["in.pkl" := Pickled (PyObj blinker_board)]} ∅
             "01012020.00-00-00" [])
    = Return tt w3 ∧
    files w2 !! "out.pkl" = files w3 !! "out.pkl".
Proof.
  destruct (X16_main_resumes
              (λ s, if bool_decide (s = "2") then Ok 2 else Ok 1) "conway.py"
              [("-f", "in.pkl"); ("-o", "mid.pkl"); ("-n", "1")]
              [("-f", "mid.pkl"); ("-o", "out.pkl"); ("-n", "1")]
              [("-f", "in.pkl"); ("-o", "out.pkl"); ("-n", "2")]
              "in.pkl" "mid.pkl" "out.pkl" "1" "1" "2" 1 1 3 3
              [0;1;0; 0;1;0; 0;1;0]
              (World {["in.pkl" := Pickled (PyObj blinker_board)]} ∅
                     "01012020.00-00-00" []))
    as (w1 & w2 & w3 & Hrun1 & Hrun2 & Hrun3 & Hsame & _).
  - vm_compute; reflexivity.
  - vm_compute; reflexivity.
  - vm_compute; reflexivity.
  - vm_compute; reflexivity.
  - vm_compute; reflexivity.
  - vm_compute; reflexivity.
  - vm_compute; reflexivity.
  - vm_compute; reflexivity.
  - vm_compute; reflexivity.
  - discriminate.
  - discriminate.
  - discriminate.
  - discriminate.
  - discriminate.
  - discriminate.
  - reflexivity.
  - reflexivity.
  - reflexivity.
  - lia.
  - lia.
  - cbn. apply not_elem_of_empty.
  - cbn. apply not_elem_of_empty.
  - cbn. apply not_elem_of_empty.
  - cbn [files]. apply lookup_singleton_eq.
  - reflexivity.
  - lia.
  - lia.
  - repeat constructor; lia.
  - exists w1, w2, w3. repeat split; assumption.
Defined.
